(** * utils.py: warehouse credentials, queries and charts

    A shallow embedding of [utils.py], the integration layer of the
    analytics assistant: the credential resolver ([get_login_token],
    [get_connection_params]), the connection factory, the metadata
    fetcher, the query executor and the chart generator, with the logger
    and the statements that run when the module is loaded.

    Python calls are embedded in a small monad [Py] that threads the log
    written through [logger] and stops at the first raised exception;
    [try_except] is the [try: ... except Exception as e: ...] statement.
    The services the module talks to (the token file, the warehouse
    driver, plotly) are explicit arguments that say what each call returns
    or raises. *)

From Stdlib Require Import ZArith NArith Ascii String DecimalString.
From stdpp Require Import base option list strings gmap.

Local Open Scope N_scope.

(** ** Python strings

    A [str] is a sequence of Unicode code points. *)

Abbreviation pystr := (list N).

(** A literal of the source whose characters are all ASCII. *)
Definition lit (s : string) : pystr :=
  List.map N_of_ascii (list_ascii_of_string s).

(** [str.isspace] on one code point: the code points CPython lists as
    whitespace. *)
Definition isspace (c : N) : bool :=
  ((0x09 <=? c) && (c <=? 0x0D)) || ((0x1C <=? c) && (c <=? 0x20))
  || (c =? 0x85) || (c =? 0xA0) || (c =? 0x1680)
  || ((0x2000 <=? c) && (c <=? 0x200A))
  || (c =? 0x2028) || (c =? 0x2029) || (c =? 0x202F) || (c =? 0x205F)
  || (c =? 0x3000).

Fixpoint lstrip (s : pystr) : pystr :=
  match s with
  | c :: s' => if isspace c then lstrip s' else s
  | [] => []
  end.

Definition rstrip (s : pystr) : pystr := rev (lstrip (rev s)).

(** [s.strip()] *)
Definition strip (s : pystr) : pystr := rstrip (lstrip s).



(** ** Python values

    The values that occur as dictionary entries, column labels and table
    cells: [None], integers and strings. Two more stand for what pandas
    keeps in a column of a table that holds a missing cell, where it
    picks the type of the column itself: [PyNA] is a missing cell as it
    is stored, [None] or NaN, and [PyNum z] the integer [z] as it is
    stored, [z] itself or the float nearest to it. *)

Inductive pyval :=
| PyNone
| PyInt (z : Z)
| PyStr (s : pystr)
| PyNA
| PyNum (z : Z).

#[global] Instance pyval_eq_dec : EqDecision pyval.
Proof. solve_decision. Defined.

Definition pyval_encode (v : pyval) : unit + (Z + (pystr + (unit + Z))) :=
  match v with
  | PyNone => inl tt
  | PyInt z => inr (inl z)
  | PyStr s => inr (inr (inl s))
  | PyNA => inr (inr (inr (inl tt)))
  | PyNum z => inr (inr (inr (inr z)))
  end.

Definition pyval_decode (x : unit + (Z + (pystr + (unit + Z)))) : pyval :=
  match x with
  | inl _ => PyNone
  | inr (inl z) => PyInt z
  | inr (inr (inl s)) => PyStr s
  | inr (inr (inr (inl _))) => PyNA
  | inr (inr (inr (inr z))) => PyNum z
  end.

#[global] Instance pyval_countable : Countable pyval.
Proof.
  apply (inj_countable' pyval_encode pyval_decode).
  intros []; reflexivity.
Defined.

(** What [os.getenv] returned: the value, or [None] when the variable is
    not set. *)
Definition of_env (v : option pystr) : pyval :=
  match v with
  | Some s => PyStr s
  | None => PyNone
  end.

(** ** Exceptions, the log and the [Py] monad *)

(** A raised exception: its class name, whether the class derives from
    [Exception] (what [except Exception] catches; [KeyboardInterrupt] and
    [SystemExit] do not), and [str(e)]. *)
Record pyexn := PyExn {
  exn_type : string;
  exn_is_Exception : bool;
  exn_str : pystr
}.

Inductive outcome (A : Type) :=
| Returns (a : A)
| Raises (e : pyexn).
Arguments Returns {A} a.
Arguments Raises {A} e.

Inductive level := DEBUG | WARNING | ERROR.

Abbreviation log_record := (level * pystr)%type.

(** A call: the records it logged, in order, and how it ended. *)
Definition Py (A : Type) : Type := list log_record * outcome A.

Definition log_of {A} (m : Py A) : list log_record := fst m.
Definition outcome_of {A} (m : Py A) : outcome A := snd m.

Definition py_bind {A B} (f : A → Py B) (m : Py A) : Py B :=
  match m with
  | (l, Returns a) => let '(l', r) := f a in (l ++ l', r)
  | (l, Raises e) => (l, Raises e)
  end.

#[global] Instance Py_ret : MRet Py := λ A a, ([], Returns a).
#[global] Instance Py_bind : MBind Py := λ A B, py_bind.

Definition raise {A} (e : pyexn) : Py A := ([], Raises e).

(** A call into a service, which logs nothing here. *)
Definition call {A} (r : outcome A) : Py A := ([], r).

Definition log (lvl : level) (msg : pystr) : Py unit := ([(lvl, msg)], Returns tt).

(** [try: body except Exception as e: handler e] *)
Definition try_except {A} (body : Py A) (handler : pyexn → Py A) : Py A :=
  match body with
  | (l, Returns a) => (l, Returns a)
  | (l, Raises e) =>
      if exn_is_Exception e
      then let '(l', r) := handler e in (l ++ l', r)
      else (l, Raises e)
  end.

(** The symbols the log messages start with. *)
Definition check_mark : pystr := [0x2705].
Definition siren : pystr := [0x1F6A8].
Definition warning_sign : pystr := [0x26A0; 0xFE0F].

(** ** Configuration and the token file *)

(** The module's globals, read from the environment when it is loaded. *)
Record config := Config {
  SNOWFLAKE_USER : option pystr;
  SNOWFLAKE_PASSWORD : option pystr;
  SNOWFLAKE_ACCOUNT : option pystr;
  SNOWFLAKE_WAREHOUSE : option pystr;
  SNOWFLAKE_DATABASE : option pystr;
  SNOWFLAKE_SCHEMA : option pystr;
  SNOWFLAKE_HOST : option pystr
}.

(** The file system as the resolver sees it: [os.path.exists path], and
    what [open(path, "r")] followed by [f.read()] gives, the text or the
    exception either of them raised. *)
Record filesystem := FileSystem {
  path_exists : pystr → bool;
  read_text : pystr → outcome pystr
}.

Definition token_path : pystr := lit "/snowflake/session/token".

(** ** The credential resolver *)

Definition get_login_token (fs : filesystem) : Py (option pystr) :=
  if path_exists fs token_path then
    try_except
      (s ← call (read_text fs token_path);
       mret (Some (strip s)))
      (λ e,
       log ERROR (siren ++ lit " Error reading OAuth token: " ++ exn_str e);;
       raise e)
  else
    log WARNING (warning_sign ++ lit " Running locally: No OAuth token file found. Falling back to password authentication.");;
    mret None.

(** [if token:] on a value that is [None] or a string. *)
Definition truthy (token : option pystr) : bool :=
  match token with
  | Some (_ :: _) => true
  | Some [] | None => false
  end.

Definition oauth_params (cfg : config) (token : pystr) : gmap pystr pyval :=
  list_to_map [
    (lit "account", of_env (SNOWFLAKE_ACCOUNT cfg));
    (lit "host", of_env (SNOWFLAKE_HOST cfg));
    (lit "authenticator", PyStr (lit "oauth"));
    (lit "token", PyStr token);
    (lit "warehouse", of_env (SNOWFLAKE_WAREHOUSE cfg));
    (lit "database", of_env (SNOWFLAKE_DATABASE cfg));
    (lit "schema", of_env (SNOWFLAKE_SCHEMA cfg))
  ].

Definition password_params (cfg : config) : gmap pystr pyval :=
  list_to_map [
    (lit "account", of_env (SNOWFLAKE_ACCOUNT cfg));
    (lit "host", of_env (SNOWFLAKE_HOST cfg));
    (lit "user", of_env (SNOWFLAKE_USER cfg));
    (lit "password", of_env (SNOWFLAKE_PASSWORD cfg));
    (lit "warehouse", of_env (SNOWFLAKE_WAREHOUSE cfg));
    (lit "database", of_env (SNOWFLAKE_DATABASE cfg));
    (lit "schema", of_env (SNOWFLAKE_SCHEMA cfg))
  ].

Definition get_connection_params (cfg : config) (fs : filesystem)
  : Py (gmap pystr pyval) :=
  token ← get_login_token fs;
  if truthy token then
    log DEBUG (check_mark ++ lit " Using OAuth authentication (inside Snowflake Container Services).");;
    mret (oauth_params cfg (default [] token))
  else
    log DEBUG (check_mark ++ lit " Using username/password authentication (running locally).");;
    mret (password_params cfg).

(** ** Tables

    A [pandas.DataFrame] as far as the module looks at it: the column
    labels and the rows of cells. A column without a missing cell keeps
    the integers and strings it was built from. A column with a missing
    cell is stored in a type pandas picks (a column of integers becomes
    one of floats with NaN, and it depends on the version of pandas
    whether [None] stays [None] among strings): its cells are [PyNA] and
    [PyNum]. *)

Record DataFrame := mkDataFrame {
  columns : list pyval;
  rows : list (list pyval)
}.

(** [df.empty]: an axis of length zero. *)
Definition df_empty (df : DataFrame) : bool :=
  (length (rows df) =? 0)%nat || (length (columns df) =? 0)%nat.

Definition str_of_nat (n : nat) : pystr :=
  lit (NilEmpty.string_of_uint (Nat.to_uint n)).

Definition ValueError (msg : pystr) : pyexn := PyExn "ValueError" true msg.
Definition TypeError (msg : pystr) : pyexn := PyExn "TypeError" true msg.
Definition IndexError (msg : pystr) : pyexn := PyExn "IndexError" true msg.

(** [pd.DataFrame()] *)
Definition DataFrame_empty : DataFrame := mkDataFrame [] [].

(** [None], or what pandas stores for it. *)
Definition is_missing (c : pyval) : bool :=
  match c with
  | PyNone | PyNA => true
  | _ => false
  end.

(** A cell as it is stored in a column that holds a missing cell. *)
Definition stored (c : pyval) : pyval :=
  match c with
  | PyNone | PyNA => PyNA
  | PyInt z | PyNum z => PyNum z
  | PyStr s => PyStr s
  end.

(** One column as it is stored. *)
Definition store_column (col : list pyval) : list pyval :=
  if existsb is_missing col then List.map stored col else col.

(** For each of the columns [0 .. width - 1] of rows of that width,
    whether it holds a missing cell. *)
Definition missing_columns (width : nat) (cells : list (list pyval)) : list bool :=
  List.map (λ j, existsb (λ row, is_missing (nth j row PyNone)) cells) (seq 0 width).

Definition store_row (flags : list bool) (row : list pyval) : list pyval :=
  zip_with (λ (flag : bool) c, if flag then stored c else c) flags row.

(** Rows of one width as they are stored, column by column. *)
Definition store (width : nat) (cells : list (list pyval)) : list (list pyval) :=
  List.map (store_row (missing_columns width cells)) cells.

(** [pd.DataFrame({label: cells, ...})]: one column per entry, all of one
    length. *)
Definition DataFrame_from_dict (d : list (pyval * list pyval)) : outcome DataFrame :=
  match d with
  | [] => Returns DataFrame_empty
  | (_, cells) :: _ =>
      let n := length cells in
      if forallb (λ col, (length (snd col) =? n)%nat) d
      then Returns (mkDataFrame (List.map fst d)
                      (List.map (λ i, List.map (λ col, nth i (store_column (snd col)) PyNone) d)
                                (seq 0 n)))
      else Raises (ValueError (lit "All arrays must be of the same length"))
  end.

Definition pad (width : nat) (row : list pyval) : list pyval :=
  row ++ repeat PyNone (width - length row).

(** [pd.DataFrame(data)] and [pd.DataFrame(data, columns=labels)] on a
    list of row tuples: short rows are filled up with missing cells, the
    labels default to [0, 1, ...], and labels that do not match the width
    are refused. *)
Definition DataFrame_from_records (data : list (list pyval))
    (labels : option (list pyval)) : outcome DataFrame :=
  match data, labels with
  | [], None => Returns DataFrame_empty
  | [], Some cs => Returns (mkDataFrame cs [])
  | _ :: _, _ =>
      let width := list_max (List.map (@length pyval) data) in
      let cells := store width (List.map (pad width) data) in
      match labels with
      | None =>
          Returns (mkDataFrame (List.map (λ i, PyInt (Z.of_nat i)) (seq 0 width)) cells)
      | Some cs =>
          if (length cs =? width)%nat
          then Returns (mkDataFrame cs cells)
          else Raises (ValueError (str_of_nat (length cs) ++ lit " columns passed, passed data had "
                                     ++ str_of_nat width ++ lit " columns"))
      end
  end.

(** What a caller hands to the chart generator: a table, or the bare row
    tuples. *)
Inductive pydata :=
| FrameData (df : DataFrame)
| RecordsData (records : list (list pyval)).

(** [pd.DataFrame(data)] *)
Definition pd_DataFrame (data : pydata) : outcome DataFrame :=
  match data with
  | FrameData df => Returns df
  | RecordsData records => DataFrame_from_records records None
  end.

(** [index[i]] on [df.columns] *)
Definition getitem (labels : list pyval) (i : nat) : outcome pyval :=
  match labels !! i with
  | Some c => Returns c
  | None => Raises (IndexError (lit "index " ++ str_of_nat i
                                  ++ lit " is out of bounds for axis 0 with size "
                                  ++ str_of_nat (length labels)))
  end.

(** ** The warehouse driver *)

(** An entry of [cursor.description]; [desc[0]] is its [name]. *)
Record ResultMetadata := mkResultMetadata {
  name : pystr;
  type_code : Z
}.

(** A cursor after [execute]: what [fetchall()], [description] and
    [close()] give. *)
Record executed := Executed {
  fetchall : outcome (list (list pyval));
  description : option (list ResultMetadata);
  close : outcome unit
}.

(** A cursor: [execute sql] raises or leaves the cursor with a result. *)
Record cursor_obj := Cursor {
  execute : pystr → outcome executed
}.

(** A connection: what [conn.cursor()] gives. *)
Record connection := Connection {
  cursor : outcome cursor_obj
}.

(** [[desc[0] for desc in cursor.description]] *)
Definition column_names (d : option (list ResultMetadata)) : outcome (list pyval) :=
  match d with
  | Some descs => Returns (List.map (λ desc, PyStr (name desc)) descs)
  | None => Raises (TypeError (lit "'NoneType' object is not iterable"))
  end.

(** ** The connection factory *)

(** [connect] is [snowflake.connector.connect], called with the
    parameters as keyword arguments. *)
Definition create_connection (connect : gmap pystr pyval → outcome connection)
    (cfg : config) (fs : filesystem) : Py connection :=
  try_except
    (params ← get_connection_params cfg fs;
     conn ← call (connect params);
     log DEBUG (check_mark ++ lit " Snowflake connection established successfully!");;
     mret conn)
    (λ e,
     log ERROR (siren ++ lit " Snowflake Connection Failed: " ++ exn_str e);;
     raise e).

(** ** The metadata fetcher *)

Definition metadata_query : pystr :=
  [0x0A] ++ lit "        SELECT TABLE_NAME, COLUMN_NAME, DATA_TYPE" ++
  [0x0A] ++ lit "        FROM INFORMATION_SCHEMA.COLUMNS;" ++
  [0x0A] ++ lit "    ".

Definition metadata_columns : list pyval :=
  [PyStr (lit "TABLE_NAME"); PyStr (lit "COLUMN_NAME"); PyStr (lit "DATA_TYPE")].

(** One row of the grouped frame: the entry [column: type] goes into the
    dictionary of its table, replacing an earlier entry of that column;
    [groupby] leaves out the rows whose key is missing. *)
Definition add_column (acc : gmap pyval (gmap pyval pyval)) (row : list pyval)
  : gmap pyval (gmap pyval pyval) :=
  match row with
  | [table; col; dtype] =>
      if is_missing table then acc
      else <[table := <[col := dtype]> (default ∅ (acc !! table))]> acc
  | _ => acc
  end.

(** [metadata_df.drop(columns=["TABLE_NAME"]).groupby(metadata_df["TABLE_NAME"],
    group_keys=False).apply(lambda x: {col: dtype for ...}).to_dict()]:
    one dictionary per table. When no row has a table, there is no group
    to apply the function to, and what comes back is the dictionary form
    of the frame without its rows: an empty dictionary under each of the
    columns that are left. *)
Definition group_columns (metadata_df : DataFrame) : gmap pyval (gmap pyval pyval) :=
  if forallb (λ row, is_missing (hd PyNone row)) (rows metadata_df)
  then list_to_map ((λ label, (label, ∅)) <$>
                    filter (λ label, label ≠ PyStr (lit "TABLE_NAME")) (columns metadata_df))
  else foldl add_column ∅ (rows metadata_df).

Definition get_snowflake_metadata (conn : connection)
  : Py (option (gmap pyval (gmap pyval pyval))) :=
  log DEBUG (lit "Fetching Snowflake metadata...");;
  try_except
    (cur ← call (cursor conn);
     st ← call (execute cur metadata_query);
     metadata_rows ← call (fetchall st);
     call (close st);;
     match metadata_rows with
     | [] =>
         log WARNING (warning_sign ++ lit " No metadata retrieved! Check Snowflake permissions.");;
         mret (Some ∅)
     | _ :: _ =>
         metadata_df ← call (DataFrame_from_records metadata_rows (Some metadata_columns));
         let metadata_dict := group_columns metadata_df in
         log DEBUG (check_mark ++ lit " Metadata retrieved successfully!");;
         mret (Some metadata_dict)
     end)
    (λ e,
     log ERROR (siren ++ lit " Error fetching metadata: " ++ exn_str e);;
     mret None).

(** ** The query executor *)

Definition query_snowflake (conn : connection) (sql_query : pystr) : Py DataFrame :=
  log DEBUG (lit "Executing SQL query: " ++ sql_query);;
  try_except
    (cur ← call (cursor conn);
     st ← call (execute cur sql_query);
     result ← call (fetchall st);
     columns ← call (column_names (description st));
     call (close st);;
     match result with
     | [] =>
         log WARNING (warning_sign ++ lit " Query returned no data!");;
         mret DataFrame_empty
     | _ :: _ =>
         log DEBUG (check_mark ++ lit " SQL query executed successfully!");;
         call (DataFrame_from_records result (Some columns))
     end)
    (λ e,
     log ERROR (siren ++ lit " SQL Execution Error: " ++ exn_str e);;
     call (DataFrame_from_dict [(PyStr (lit "Error"), [PyStr (exn_str e)])])).

(** ** The chart generator *)

(** The keyword arguments of [fig.update_layout]. *)
Record layout := Layout {
  plot_bgcolor : pystr;
  paper_bgcolor : pystr;
  font_color : pystr
}.

(** plotly as the module uses it: [px.bar(df, x=, y=, title=)],
    [fig.update_layout(...)], which leaves the figure changed, and
    [pio.to_html(fig, full_html=)]. *)
Record Plotly := {
  Figure : Type;
  px_bar : DataFrame → pyval → pyval → pystr → outcome Figure;
  update_layout : Figure → layout → outcome Figure;
  to_html : Figure → bool → outcome pystr
}.

Definition visual_generate (P : Plotly) (query : pystr) (data : pydata)
    (response : pystr) : Py pystr :=
  log DEBUG (lit "Attempting to generate interactive HTML visualization...");;
  try_except
    (df ← call (pd_DataFrame data);
     if df_empty df || (length (columns df) <? 2)%nat then
       log WARNING (warning_sign ++ lit " Not enough data to generate a chart.");;
       mret []
     else
       x ← call (getitem (columns df) 0);
       y ← call (getitem (columns df) 1);
       fig ← call (px_bar P df x y response);
       fig ← call (update_layout P fig
                     (Layout (lit "#2B2C2E") (lit "#2B2C2E") (lit "#FFFFFF")));
       html_str ← call (to_html P fig false);
       log DEBUG (check_mark ++ lit " HTML visualization generated successfully!");;
       mret html_str)
    (λ e,
     log ERROR (siren ++ lit " HTML chart generation error: " ++ exn_str e);;
     mret []).

(** ** The logger

    The [logging] module as [get_logger] uses it. The module keeps one
    logger per name; a logger has a level and a list of handlers, a
    handler a stream, a level and a format. *)




Inductive stream := stdout | stderr.

(** The pieces of a format string such as
    ['%(name)s [%(asctime)s] [%(levelname)s] %(message)s']. *)
Inductive format_piece :=
| Text (s : pystr)
| Name
| Asctime
| Levelname
| Message.

Record handler := Handler {
  handler_stream : stream;
  handler_level : N;
  handler_format : list format_piece
}.








(** ** Loading the module *)

(** [os.getenv(name)] *)
Definition getenv (environ : gmap pystr pystr) (name : pystr) : option pystr :=
  environ !! name.

(** [load_dotenv()]: the entries of the [.env] file are added to the
    environment, where a variable that is already set keeps its value. *)
Definition load_dotenv (environ dotenv : gmap pystr pystr) : gmap pystr pystr :=
  environ ∪ dotenv.

(** The statements of the module in their order. [AzureChatOpenAI] stands
    for the constructor called with [openai_api_key], [azure_endpoint],
    [deployment_name], [api_version] and the temperature 0.0; the result
    is the client [llm] and the warehouse settings. *)
Definition load_utils {LLM : Type} (environ dotenv : gmap pystr pystr)
    (AzureChatOpenAI : pyval → pyval → pyval → pyval → outcome LLM)
  : Py (LLM * config) :=
  log DEBUG (lit "Loading environment variables...");;
  let environ := load_dotenv environ dotenv in
  let api_key := getenv environ (lit "OPENAI_API_KEY") in
  let deployment_name := getenv environ (lit "AZURE_DEPLOYMENT_NAME") in
  let api_version := getenv environ (lit "AZURE_API_VERSION") in
  let azure_endpoint := getenv environ (lit "AZURE_ENDPOINT") in
  log DEBUG (lit "Initializing Azure OpenAI Model...");;
  llm ← try_except
    (llm ← call (AzureChatOpenAI (of_env api_key) (of_env azure_endpoint)
                   (of_env deployment_name) (of_env api_version));
     log DEBUG (check_mark ++ lit " Azure OpenAI Model initialized successfully!");;
     mret llm)
    (λ e,
     log ERROR (siren ++ lit " Failed to Initialize Azure OpenAI Model: " ++ exn_str e);;
     raise e);
  mret (llm,
        {| SNOWFLAKE_USER := getenv environ (lit "SNOWFLAKE_USER");
           SNOWFLAKE_PASSWORD := getenv environ (lit "SNOWFLAKE_PASSWORD");
           SNOWFLAKE_ACCOUNT := getenv environ (lit "SNOWFLAKE_ACCOUNT");
           SNOWFLAKE_WAREHOUSE := getenv environ (lit "SNOWFLAKE_WAREHOUSE");
           SNOWFLAKE_DATABASE := getenv environ (lit "SNOWFLAKE_DATABASE");
           SNOWFLAKE_SCHEMA := getenv environ (lit "SNOWFLAKE_SCHEMA");
           SNOWFLAKE_HOST := getenv environ (lit "SNOWFLAKE_HOST") |}).

(** ** What the specification says, as predicates *)

(** The token file is there and reads as [s]. *)
Definition token_file_readable (fs : filesystem) (s : pystr) : Prop :=
  path_exists fs token_path = true ∧ read_text fs token_path = Returns s.

Definition token_file_absent (fs : filesystem) : Prop :=
  path_exists fs token_path = false.

(** The parameters carry the token and the oauth authenticator, and
    neither a password nor a user. *)
Definition uses_oauth (params : gmap pystr pyval) (token : pystr) : Prop :=
  params !! lit "token" = Some (PyStr token)
  ∧ params !! lit "authenticator" = Some (PyStr (lit "oauth"))
  ∧ params !! lit "password" = None
  ∧ params !! lit "user" = None.

(** The parameters carry the configured user and password, and neither a
    token nor an authenticator. *)
Definition uses_password (cfg : config) (params : gmap pystr pyval) : Prop :=
  params !! lit "user" = Some (of_env (SNOWFLAKE_USER cfg))
  ∧ params !! lit "password" = Some (of_env (SNOWFLAKE_PASSWORD cfg))
  ∧ params !! lit "token" = None
  ∧ params !! lit "authenticator" = None.

(** Token resolution as the specification words it: a readable token file
    always gives the token parameters, an absent one the password
    parameters. *)
Definition token_resolution_spec (cfg : config) (fs : filesystem) : Prop :=
  (∀ s, token_file_readable fs s →
        ∃ params, outcome_of (get_connection_params cfg fs) = Returns params
                  ∧ uses_oauth params (strip s))
  ∧ (token_file_absent fs →
        ∃ params, outcome_of (get_connection_params cfg fs) = Returns params
                  ∧ uses_password cfg params).

(** Every driver call of [query_snowflake] goes through, no row comes
    back, and the cursor describes the columns [descs]. *)
Definition query_succeeds_empty (conn : connection) (sql_query : pystr)
    (descs : list ResultMetadata) : Prop :=
  ∃ cur st, cursor conn = Returns cur
            ∧ execute cur sql_query = Returns st
            ∧ fetchall st = Returns []
            ∧ description st = Some descs
            ∧ close st = Returns tt.

(** The empty result as the specification words it: no rows, and the
    headers the cursor reported. *)
Definition empty_result_headers_spec (conn : connection) (sql_query : pystr) : Prop :=
  ∀ descs, query_succeeds_empty conn sql_query descs →
    ∃ df, outcome_of (query_snowflake conn sql_query) = Returns df
          ∧ rows df = []
          ∧ columns df = List.map (λ desc, PyStr (name desc)) descs.

(** A driver call of [query_snowflake] raises [e]. *)
Inductive query_raises (conn : connection) (sql_query : pystr) (e : pyexn) : Prop :=
| query_cursor_raises :
    cursor conn = Raises e → query_raises conn sql_query e
| query_execute_raises cur :
    cursor conn = Returns cur → execute cur sql_query = Raises e →
    query_raises conn sql_query e
| query_fetchall_raises cur st :
    cursor conn = Returns cur → execute cur sql_query = Returns st →
    fetchall st = Raises e → query_raises conn sql_query e
| query_close_raises cur st fetched descs :
    cursor conn = Returns cur → execute cur sql_query = Returns st →
    fetchall st = Returns fetched → description st = Some descs →
    close st = Raises e → query_raises conn sql_query e.

(** Every driver call of [get_snowflake_metadata] goes through and
    [fetched] comes back. *)
Definition metadata_succeeds (conn : connection) (fetched : list (list pyval)) : Prop :=
  ∃ cur st, cursor conn = Returns cur
            ∧ execute cur metadata_query = Returns st
            ∧ fetchall st = Returns fetched
            ∧ close st = Returns tt.


(** The chart of a table is rendered: the three plotly calls go through
    and give [html]. *)
Definition renders (P : Plotly) (df : DataFrame) (response html : pystr) : Prop :=
  ∃ x y fig fig', columns df !! 0%nat = Some x ∧ columns df !! 1%nat = Some y
    ∧ px_bar P df x y response = Returns fig
    ∧ update_layout P fig (Layout (lit "#2B2C2E") (lit "#2B2C2E") (lit "#FFFFFF"))
      = Returns fig'
    ∧ to_html P fig' false = Returns html.


(** ** Concrete surroundings *)

Definition local_config : config :=
  Config (Some (lit "analyst")) (Some (lit "secret")) (Some (lit "acme"))
         (Some (lit "WH")) (Some (lit "SALES")) (Some (lit "PUBLIC")) None.

(** Only the token file exists; it holds [text]. *)
Definition token_fs (text : pystr) : filesystem :=
  FileSystem (λ p, bool_decide (p = token_path)) (λ _, Returns text).

(** No token file. *)
Definition local_fs : filesystem :=
  FileSystem (λ _, false)
             (λ _, Raises (PyExn "FileNotFoundError" true (lit "[Errno 2] No such file or directory"))).

Definition PermissionError : pyexn :=
  PyExn "PermissionError" true (lit "[Errno 13] Permission denied: '/snowflake/session/token'").

(** The token file exists and cannot be read. *)
Definition locked_fs : filesystem :=
  FileSystem (λ p, bool_decide (p = token_path)) (λ _, Raises PermissionError).

(** A connection whose every query returns [fetched] under the columns
    [descs]. *)
Definition fixed_conn (fetched : list (list pyval)) (descs : list ResultMetadata)
  : connection :=
  Connection (Returns (Cursor (λ _,
    Returns (Executed (Returns fetched) (Some descs) (Returns tt))))).

Definition ProgrammingError : pyexn :=
  PyExn "ProgrammingError" true (lit "SQL compilation error: syntax error line 1 at position 0").

(** A connection that refuses every query. *)
Definition failing_conn : connection :=
  Connection (Returns (Cursor (λ _, Raises ProgrammingError))).

Definition DatabaseError : pyexn :=
  PyExn "DatabaseError" true (lit "250001: Could not connect to Snowflake backend").

(** A driver that refuses every sign-in. *)
Definition refusing_connect (params : gmap pystr pyval) : outcome connection :=
  Raises DatabaseError.

(** A driver that takes a token and nothing else. *)
Definition token_connect (params : gmap pystr pyval) : outcome connection :=
  match params !! lit "token" with
  | Some (PyStr _) => Returns failing_conn
  | _ => Raises DatabaseError
  end.

Definition label_str (v : pyval) : pystr :=
  match v with
  | PyNone => lit "None"
  | PyInt z | PyNum z => lit (NilEmpty.string_of_int (Z.to_int z))
  | PyStr s => s
  | PyNA => lit "nan"
  end.

(** A stand-in for plotly to run the generator with: it writes the title
    and the axis labels into a plain fragment. *)
Record plain_figure := PlainFigure {
  pf_title : pystr;
  pf_x : pystr;
  pf_y : pystr;
  pf_layout : option layout
}.

Definition plain_html (fig : plain_figure) : pystr :=
  lit "<div><h1>" ++ pf_title fig ++ lit "</h1><p>" ++ pf_x fig
  ++ lit "</p><p>" ++ pf_y fig ++ lit "</p></div>".

Definition plain_plotly : Plotly := {|
  Figure := plain_figure;
  px_bar := λ _ x y t, Returns (PlainFigure t (label_str x) (label_str y) None);
  update_layout := λ fig l,
    Returns (PlainFigure (pf_title fig) (pf_x fig) (pf_y fig) (Some l));
  to_html := λ fig _, Returns (plain_html fig)
|}.







(** The table of the specification's example. *)
Definition label_value_frame : DataFrame :=
  mkDataFrame [PyStr (lit "label"); PyStr (lit "value")]
              [[PyStr (lit "A"); PyInt 10]; [PyStr (lit "B"); PyInt 20]].

(** ** Conditions on the driver and on plotly *)

(** Every driver call of [query_snowflake] goes through: [fetched] comes
    back and the cursor describes the columns [descs]. *)
Definition query_succeeds (conn : connection) (sql_query : pystr)
    (fetched : list (list pyval)) (descs : list ResultMetadata) : Prop :=
  ∃ cur st, cursor conn = Returns cur
            ∧ execute cur sql_query = Returns st
            ∧ fetchall st = Returns fetched
            ∧ description st = Some descs
            ∧ close st = Returns tt.

(** The query runs and its rows are fetched, but the cursor has no
    description. *)
Definition query_undescribed (conn : connection) (sql_query : pystr) : Prop :=
  ∃ cur st fetched, cursor conn = Returns cur
                    ∧ execute cur sql_query = Returns st
                    ∧ fetchall st = Returns fetched
                    ∧ description st = None.

(** The table [pd.DataFrame({"Error": [msg]})]. *)
Definition error_frame (msg : pystr) : DataFrame :=
  mkDataFrame [PyStr (lit "Error")] [[PyStr msg]].

Definition dark_layout : layout :=
  Layout (lit "#2B2C2E") (lit "#2B2C2E") (lit "#FFFFFF").

(** One of the three plotly calls for the chart of [df] raises [e]. *)
Inductive render_raises (P : Plotly) (df : DataFrame) (response : pystr) (e : pyexn) : Prop :=
| bar_raises x y :
    columns df !! 0%nat = Some x → columns df !! 1%nat = Some y →
    px_bar P df x y response = Raises e →
    render_raises P df response e
| layout_raises x y fig :
    columns df !! 0%nat = Some x → columns df !! 1%nat = Some y →
    px_bar P df x y response = Returns fig →
    update_layout P fig dark_layout = Raises e →
    render_raises P df response e
| html_raises x y fig fig' :
    columns df !! 0%nat = Some x → columns df !! 1%nat = Some y →
    px_bar P df x y response = Returns fig →
    update_layout P fig dark_layout = Returns fig' →
    to_html P fig' false = Raises e →
    render_raises P df response e.

(** A renderer on which [to_html] fails. *)
Definition broken_plotly : Plotly := {|
  Figure := plain_figure;
  px_bar := λ _ x y t, Returns (PlainFigure t (label_str x) (label_str y) None);
  update_layout := λ fig l,
    Returns (PlainFigure (pf_title fig) (pf_x fig) (pf_y fig) (Some l));
  to_html := λ _ _, Raises (ValueError (lit "Invalid value"))
|}.

(** A cell that is an integer or a string, as the driver returned it. *)
Definition plain_cell (c : pyval) : bool :=
  match c with
  | PyInt _ | PyStr _ => true
  | _ => false
  end.

(** A row of the introspection query: three strings. *)
Definition text_row (row : list pyval) : bool :=
  match row with
  | [PyStr _; PyStr _; PyStr _] => true
  | _ => false
  end.




(** A constructor of the client that takes any settings. *)
Definition any_llm (api_key endpoint deployment version : pyval) : outcome unit :=
  Returns tt.

(** A connection whose cursor has no description. *)
Definition undescribed_conn (fetched : list (list pyval)) : connection :=
  Connection (Returns (Cursor (λ _,
    Returns (Executed (Returns fetched) None (Returns tt))))).

(** * Properties *)

(** ** Trimming *)

Lemma lstrip_split (s : pystr) :
  ∃ pre, s = pre ++ lstrip s ∧ forallb isspace pre = true.
Proof.
  induction s as [|c s [pre [Hs Hpre]]]; simpl.
  - by exists [].
  - destruct (isspace c) eqn:Hc.
    + exists (c :: pre). simpl. rewrite Hc, Hpre. by rewrite <- Hs.
    + by exists [].
Qed.

Lemma lstrip_head (s : pystr) (c : N) (rest : pystr) :
  lstrip s = c :: rest → isspace c = false.
Proof.
  induction s as [|d s IH]; simpl; [done|].
  destruct (isspace d) eqn:Hd; [done|].
  intros [= -> _]. done.
Qed.

Lemma lstrip_idem (s : pystr) : lstrip (lstrip s) = lstrip s.
Proof.
  destruct (lstrip s) as [|c rest] eqn:E; [done|].
  simpl. by rewrite (lstrip_head _ _ _ E).
Qed.

Lemma forallb_isspace_rev (s : pystr) :
  forallb isspace (rev s) = forallb isspace s.
Proof.
  induction s as [|c s IH]; [done|].
  simpl. rewrite forallb_app, IH. simpl. by rewrite andb_true_r, andb_comm.
Qed.

Lemma rstrip_split (s : pystr) :
  ∃ post, s = rstrip s ++ post ∧ forallb isspace post = true.
Proof.
  unfold rstrip. destruct (lstrip_split (rev s)) as [pre [Hs Hpre]].
  exists (rev pre). split.
  - rewrite <- rev_app_distr, <- Hs. by rewrite rev_involutive.
  - by rewrite forallb_isspace_rev.
Qed.

Lemma rstrip_last (s : pystr) (c : N) (front : pystr) :
  rstrip s = front ++ [c] → isspace c = false.
Proof.
  unfold rstrip. intros H. apply (f_equal (@rev N)) in H.
  rewrite rev_involutive, rev_app_distr in H. simpl in H.
  by apply lstrip_head in H.
Qed.

(** [strip] takes whitespace, and only whitespace, off both ends. *)
Lemma strip_split (s : pystr) :
  ∃ pre post, s = pre ++ strip s ++ post
              ∧ forallb isspace pre = true ∧ forallb isspace post = true.
Proof.
  unfold strip. destruct (lstrip_split s) as [pre [Hs Hpre]].
  destruct (rstrip_split (lstrip s)) as [post [Hl Hpost]].
  exists pre, post. split; [|done]. by rewrite <- Hl.
Qed.

Lemma strip_last (s : pystr) (c : N) (front : pystr) :
  strip s = front ++ [c] → isspace c = false.
Proof. apply rstrip_last. Qed.

Lemma rstrip_cons_nonspace (c : N) (s : pystr) :
  isspace c = false → rstrip (c :: s) = c :: rstrip s.
Proof.
  intros Hc. unfold rstrip. simpl.
  destruct (lstrip_split (rev s)) as [pre [Hs Hpre]].
  assert (Hgen : ∀ a b : pystr, forallb isspace a = true →
            lstrip (a ++ b) = lstrip b).
  { induction a as [|x a IH]; simpl; [done|].
    intros b Hb. apply andb_true_iff in Hb as [-> Ha]. by apply IH. }
  destruct (lstrip (rev s)) as [|d rest] eqn:E.
  - rewrite app_nil_r in Hs. rewrite Hs, Hgen by done. simpl. by rewrite Hc.
  - rewrite Hs, <- app_assoc, Hgen by done. simpl.
    rewrite (lstrip_head _ _ _ E). simpl.
    by rewrite rev_app_distr.
Qed.

Lemma strip_head (s : pystr) (c : N) (rest : pystr) :
  strip s = c :: rest → isspace c = false.
Proof.
  unfold strip. destruct (lstrip s) as [|d l] eqn:E; [done|].
  pose proof (lstrip_head _ _ _ E) as Hd.
  rewrite rstrip_cons_nonspace by done. by intros [= <- _].
Qed.

(** ** The credential resolver *)

Lemma oauth_params_uses_oauth (cfg : config) (token : pystr) :
  uses_oauth (oauth_params cfg token) token.
Proof. repeat split; reflexivity. Qed.

Lemma password_params_uses_password (cfg : config) :
  uses_password cfg (password_params cfg).
Proof. repeat split; reflexivity. Qed.

(** A readable token file gives the trimmed text as the token. *)
Lemma get_login_token_readable (fs : filesystem) (s : pystr) :
  token_file_readable fs s →
  get_login_token fs = ([], Returns (Some (strip s))).
Proof.
  intros [Hexists Hread]. unfold get_login_token.
  rewrite Hexists, Hread. reflexivity.
Qed.

Lemma get_login_token_absent (fs : filesystem) :
  token_file_absent fs →
  outcome_of (get_login_token fs) = Returns None.
Proof.
  intros Habsent. unfold get_login_token. rewrite Habsent. reflexivity.
Qed.

(** C1, as amended: when the token file is readable and its text does not
    trim to the empty string, the parameters carry the trimmed token and
    the oauth authenticator, and neither password nor user; when the file
    is absent, they carry the configured user and password, and neither
    token nor authenticator. *)
Theorem get_connection_params_auth (cfg : config) (fs : filesystem) :
  (∀ s, token_file_readable fs s → strip s ≠ [] →
        ∃ params, outcome_of (get_connection_params cfg fs) = Returns params
                  ∧ uses_oauth params (strip s))
  ∧ (token_file_absent fs →
        ∃ params, outcome_of (get_connection_params cfg fs) = Returns params
                  ∧ uses_password cfg params).
Proof.
  split.
  - intros s Hfile Htoken. exists (oauth_params cfg (strip s)).
    split; [|apply oauth_params_uses_oauth].
    unfold get_connection_params. rewrite (get_login_token_readable _ _ Hfile).
    destruct (strip s) as [|c token]; [done|]. reflexivity.
  - intros Habsent. exists (password_params cfg).
    split; [|apply password_params_uses_password].
    unfold get_connection_params, get_login_token. rewrite Habsent. reflexivity.
Qed.

Lemma get_connection_params_auth_witness :
  (∃ params, outcome_of (get_connection_params local_config
                           (token_fs ([0x20] ++ lit "ver:1-hint:abc" ++ [0x0A])))
             = Returns params
             ∧ uses_oauth params (lit "ver:1-hint:abc"))
  ∧ (∃ params, outcome_of (get_connection_params local_config local_fs) = Returns params
               ∧ uses_password local_config params).
Proof.
  split.
  - apply (proj1 (get_connection_params_auth local_config
                    (token_fs ([0x20] ++ lit "ver:1-hint:abc" ++ [0x0A])))
             ([0x20] ++ lit "ver:1-hint:abc" ++ [0x0A])).
    + split; reflexivity.
    + discriminate.
  - apply (proj2 (get_connection_params_auth local_config local_fs)).
    reflexivity.
Defined.

(** The specification's wording of C1 fails on a token file that holds
    only whitespace: the file is readable, yet no token is passed on. *)
Lemma token_resolution_spec_blank_file :
  ¬ token_resolution_spec local_config (token_fs [0x20; 0x0A]).
Proof.
  intros [Hreadable _].
  destruct (Hreadable [0x20; 0x0A]) as [params [Hparams [Htoken _]]].
  - split; reflexivity.
  - injection Hparams as <-. discriminate Htoken.
Qed.

(** C9: a readable token file whose text trims to the empty string gives
    the user and password parameters, with neither token nor oauth
    authenticator. *)
Theorem get_connection_params_blank_token (cfg : config) (fs : filesystem) (s : pystr) :
  token_file_readable fs s → strip s = [] →
  outcome_of (get_connection_params cfg fs) = Returns (password_params cfg)
  ∧ uses_password cfg (password_params cfg).
Proof.
  intros Hfile Hblank. split; [|apply password_params_uses_password].
  unfold get_connection_params. rewrite (get_login_token_readable _ _ Hfile), Hblank.
  reflexivity.
Qed.

Lemma get_connection_params_blank_token_witness :
  outcome_of (get_connection_params local_config (token_fs [0x09; 0x20; 0x0A]))
  = Returns (password_params local_config)
  ∧ uses_password local_config (password_params local_config).
Proof.
  apply (get_connection_params_blank_token local_config
           (token_fs [0x09; 0x20; 0x0A]) [0x09; 0x20; 0x0A]).
  - split; reflexivity.
  - reflexivity.
Defined.

(** C6: when the token file exists and reading it raises, the resolver
    raises that same exception, and so does [get_connection_params]: no
    token, null or not, is returned and no parameters are built. *)
Theorem get_login_token_read_error (cfg : config) (fs : filesystem) (e : pyexn) :
  path_exists fs token_path = true →
  read_text fs token_path = Raises e →
  outcome_of (get_login_token fs) = Raises e
  ∧ outcome_of (get_connection_params cfg fs) = Raises e.
Proof.
  intros Hexists Hread.
  assert (Htoken : outcome_of (get_login_token fs) = Raises e).
  { unfold get_login_token. rewrite Hexists, Hread.
    unfold try_except. simpl. by destruct (exn_is_Exception e). }
  split; [done|].
  unfold get_connection_params.
  destruct (get_login_token fs) as [l r]. simpl in Htoken. by subst r.
Qed.

Lemma get_login_token_read_error_witness :
  outcome_of (get_login_token locked_fs) = Raises PermissionError
  ∧ outcome_of (get_connection_params local_config locked_fs) = Raises PermissionError.
Proof.
  apply (get_login_token_read_error local_config locked_fs PermissionError);
    reflexivity.
Defined.

(** ** Exception handling *)

(** What [try_except] does with a body that raised an [Exception]. *)
Lemma try_except_caught {A} (body : Py A) (handler : pyexn → Py A) (e : pyexn) :
  outcome_of body = Raises e → exn_is_Exception e = true →
  outcome_of (try_except body handler) = outcome_of (handler e).
Proof.
  destruct body as [l r]. simpl. intros -> He.
  unfold try_except. rewrite He. by destruct (handler e).
Qed.

Lemma try_except_returned {A} (body : Py A) (handler : pyexn → Py A) (a : A) :
  outcome_of body = Returns a →
  outcome_of (try_except body handler) = Returns a.
Proof. destruct body as [l r]. simpl. by intros ->. Qed.

(** An exception that is no [Exception] passes every handler. *)
Lemma try_except_passed {A} (body : Py A) (handler : pyexn → Py A) (e : pyexn) :
  outcome_of body = Raises e → exn_is_Exception e = false →
  outcome_of (try_except body handler) = Raises e.
Proof.
  destruct body as [l r]. simpl. intros -> He.
  unfold try_except. by rewrite He.
Qed.

Lemma outcome_of_bind {A B} (m : Py A) (f : A → Py B) :
  outcome_of (m ≫= f) =
  match outcome_of m with
  | Returns a => outcome_of (f a)
  | Raises e => Raises e
  end.
Proof.
  destruct m as [l [a|e]]; simpl; [|done].
  unfold mbind, Py_bind, py_bind. by destruct (f a).
Qed.

Lemma outcome_of_log {A} (lvl : level) (msg : pystr) (k : Py A) :
  outcome_of (log lvl msg;; k) = outcome_of k.
Proof. rewrite outcome_of_bind. reflexivity. Qed.

Lemma outcome_of_call {A} (r : outcome A) : outcome_of (call r) = r.
Proof. reflexivity. Qed.

(** ** The connection factory *)

(** The factory passes on what the resolver or the driver raised. *)
Lemma create_connection_reraises (connect : gmap pystr pyval → outcome connection)
    (cfg : config) (fs : filesystem) (e : pyexn) :
  outcome_of (params ← get_connection_params cfg fs; call (connect params)) = Raises e →
  outcome_of (create_connection connect cfg fs) = Raises e.
Proof.
  intros Hraises. unfold create_connection.
  assert (Hbody : outcome_of (params ← get_connection_params cfg fs;
                              conn ← call (connect params);
                              log DEBUG (check_mark ++ lit " Snowflake connection established successfully!");;
                              mret conn) = Raises e).
  { rewrite outcome_of_bind in Hraises |- *.
    destruct (outcome_of (get_connection_params cfg fs)) as [params|e']; [|done].
    rewrite outcome_of_call in Hraises. rewrite outcome_of_bind, outcome_of_call.
    by rewrite Hraises. }
  destruct (exn_is_Exception e) eqn:He.
  - rewrite (try_except_caught _ _ e) by done. reflexivity.
  - by apply try_except_passed.
Qed.

(** With a driver that accepts the parameters the factory returns its
    connection. *)
Lemma create_connection_connects (connect : gmap pystr pyval → outcome connection)
    (cfg : config) (fs : filesystem) (params : gmap pystr pyval) (conn : connection) :
  outcome_of (get_connection_params cfg fs) = Returns params →
  connect params = Returns conn →
  outcome_of (create_connection connect cfg fs) = Returns conn.
Proof.
  intros Hparams Hconn. unfold create_connection.
  apply try_except_returned. rewrite outcome_of_bind, Hparams.
  rewrite outcome_of_bind, outcome_of_call, Hconn. reflexivity.
Qed.

(** ** The query executor *)

(** C2, as amended: a query that goes through and yields no row gives the
    table [pd.DataFrame()], with no rows and no columns; the names the
    cursor reported are not carried over. *)
Theorem query_snowflake_empty_result (conn : connection) (sql_query : pystr)
    (descs : list ResultMetadata) :
  query_succeeds_empty conn sql_query descs →
  ∃ df, outcome_of (query_snowflake conn sql_query) = Returns df
        ∧ rows df = [] ∧ columns df = [].
Proof.
  intros (cur & st & Hcur & Hexec & Hfetch & Hdesc & Hclose).
  exists DataFrame_empty. split; [|done].
  unfold query_snowflake. rewrite outcome_of_log.
  apply try_except_returned.
  rewrite Hcur. simpl. rewrite Hexec. simpl. rewrite Hfetch, Hdesc. simpl.
  rewrite Hclose. reflexivity.
Qed.

Lemma query_snowflake_empty_result_witness :
  ∃ df, outcome_of (query_snowflake
                      (fixed_conn [] [mkResultMetadata (lit "ID") 0;
                                      mkResultMetadata (lit "AMOUNT") 0])
                      (lit "SELECT ID, AMOUNT FROM ORDERS WHERE 1 = 0"))
        = Returns df
        ∧ rows df = [] ∧ columns df = [].
Proof.
  apply (query_snowflake_empty_result _ _
           [mkResultMetadata (lit "ID") 0; mkResultMetadata (lit "AMOUNT") 0]).
  eexists _, _. repeat split; reflexivity.
Defined.

(** The specification's wording of C2 fails on an empty result with one
    reported column: the table that comes back has no header. *)
Lemma empty_result_headers_spec_one_column :
  ¬ empty_result_headers_spec
      (fixed_conn [] [mkResultMetadata (lit "ID") 0])
      (lit "SELECT ID FROM ORDERS WHERE 1 = 0").
Proof.
  intros Hspec.
  destruct (Hspec [mkResultMetadata (lit "ID") 0]) as (df & Hdf & _ & Hcolumns).
  - eexists _, _. repeat split; reflexivity.
  - injection Hdf as <-. discriminate Hcolumns.
Qed.

(** C3: when a driver call of the query raises an error, the executor
    raises nothing; it returns the table with the one column [Error] and
    the one row that holds the message of the error. *)
Theorem query_snowflake_error (conn : connection) (sql_query : pystr) (e : pyexn) :
  query_raises conn sql_query e → exn_is_Exception e = true →
  ∃ df, outcome_of (query_snowflake conn sql_query) = Returns df
        ∧ columns df = [PyStr (lit "Error")]
        ∧ rows df = [[PyStr (exn_str e)]].
Proof.
  intros Hraises He.
  exists (mkDataFrame [PyStr (lit "Error")] [[PyStr (exn_str e)]]).
  split; [|done].
  unfold query_snowflake. rewrite outcome_of_log.
  rewrite (try_except_caught _ _ e); [reflexivity| |done].
  destruct Hraises as [Hcur|cur Hcur Hexec|cur st Hcur Hexec Hfetch
                      |cur st fetched descs Hcur Hexec Hfetch Hdesc Hclose].
  - by rewrite Hcur.
  - rewrite Hcur. simpl. by rewrite Hexec.
  - rewrite Hcur. simpl. rewrite Hexec. simpl. by rewrite Hfetch.
  - rewrite Hcur. simpl. rewrite Hexec. simpl. rewrite Hfetch, Hdesc. simpl.
    by rewrite Hclose.
Qed.

Lemma query_snowflake_error_witness :
  ∃ df, outcome_of (query_snowflake failing_conn (lit "SELEC 1")) = Returns df
        ∧ columns df = [PyStr (lit "Error")]
        ∧ rows df = [[PyStr (exn_str ProgrammingError)]].
Proof.
  apply (query_snowflake_error failing_conn (lit "SELEC 1") ProgrammingError).
  - apply (query_execute_raises _ _ _ (Cursor (λ _, Raises ProgrammingError)));
      reflexivity.
  - reflexivity.
Defined.

(** ** The metadata fetcher *)

(** C4: when the introspection query goes through and yields no row, the
    fetcher returns the empty mapping, not [None]. *)
Theorem get_snowflake_metadata_no_rows (conn : connection) :
  metadata_succeeds conn [] →
  outcome_of (get_snowflake_metadata conn) = Returns (Some ∅).
Proof.
  intros (cur & st & Hcur & Hexec & Hfetch & Hclose).
  unfold get_snowflake_metadata. rewrite outcome_of_log.
  apply try_except_returned.
  rewrite Hcur. simpl. rewrite Hexec. simpl. rewrite Hfetch. simpl.
  rewrite Hclose. reflexivity.
Qed.

Lemma get_snowflake_metadata_no_rows_witness :
  outcome_of (get_snowflake_metadata (fixed_conn [] [])) = Returns (Some ∅).
Proof.
  apply (get_snowflake_metadata_no_rows (fixed_conn [] [])).
  eexists _, _. repeat split; reflexivity.
Defined.



(** ** The chart generator *)

(** The guard of the generator: an empty table, or one with fewer than
    two columns, gives the empty string. *)
Lemma visual_generate_guard (P : Plotly) (query : pystr) (data : pydata)
    (df : DataFrame) (response : pystr) :
  pd_DataFrame data = Returns df →
  df_empty df || (length (columns df) <? 2)%nat = true →
  outcome_of (visual_generate P query data response) = Returns [].
Proof.
  intros Hdf Hguard. unfold visual_generate. rewrite outcome_of_log.
  apply try_except_returned. rewrite Hdf. simpl. by rewrite Hguard.
Qed.

(** C7: a table with exactly one column, and any table with fewer than
    two columns, gives the empty string, and nothing is raised. *)
Theorem visual_generate_few_columns (P : Plotly) (query : pystr) (data : pydata)
    (df : DataFrame) (response : pystr) :
  pd_DataFrame data = Returns df →
  (length (columns df) < 2)%nat →
  outcome_of (visual_generate P query data response) = Returns [].
Proof.
  intros Hdf Hcolumns. apply (visual_generate_guard _ _ _ df); [done|].
  apply orb_true_iff. right. by apply Nat.ltb_lt.
Qed.

Lemma visual_generate_few_columns_witness :
  outcome_of (visual_generate plain_plotly (lit "SELECT COUNT(*) FROM ORDERS")
                (FrameData (mkDataFrame [PyStr (lit "COUNT(*)")] [[PyInt 42]]))
                (lit "Number of orders"))
  = Returns [].
Proof.
  apply (visual_generate_few_columns plain_plotly _ _
           (mkDataFrame [PyStr (lit "COUNT(*)")] [[PyInt 42]])).
  - reflexivity.
  - simpl. lia.
Defined.

(** C10: a table with no rows gives the empty string, whatever the
    number of its columns. *)
Theorem visual_generate_no_rows (P : Plotly) (query : pystr) (data : pydata)
    (df : DataFrame) (response : pystr) :
  pd_DataFrame data = Returns df →
  rows df = [] →
  outcome_of (visual_generate P query data response) = Returns [].
Proof.
  intros Hdf Hrows. apply (visual_generate_guard _ _ _ df); [done|].
  unfold df_empty. by rewrite Hrows.
Qed.

Lemma visual_generate_no_rows_witness :
  outcome_of (visual_generate plain_plotly (lit "SELECT * FROM ORDERS WHERE 1 = 0")
                (FrameData (mkDataFrame [PyStr (lit "ID"); PyStr (lit "AMOUNT");
                                         PyStr (lit "DAY")] []))
                (lit "Orders"))
  = Returns [].
Proof.
  apply (visual_generate_no_rows plain_plotly _ _
           (mkDataFrame [PyStr (lit "ID"); PyStr (lit "AMOUNT"); PyStr (lit "DAY")] []));
    reflexivity.
Defined.

(** Past its guard the generator returns what plotly rendered for the bar
    chart of the first column against the second under the title it was
    given. *)
Lemma visual_generate_rendered (P : Plotly) (query : pystr) (data : pydata)
    (df : DataFrame) (response html : pystr) :
  pd_DataFrame data = Returns df →
  df_empty df = false →
  renders P df response html →
  outcome_of (visual_generate P query data response) = Returns html.
Proof.
  intros Hdf Hempty (x & y & fig & fig' & Hx & Hy & Hbar & Hlayout & Hhtml).
  unfold visual_generate. rewrite outcome_of_log.
  apply try_except_returned. rewrite Hdf. simpl. rewrite Hempty. simpl.
  assert (Hlen : (length (columns df) <? 2)%nat = false).
  { apply Nat.ltb_ge. by apply lookup_lt_Some in Hy. }
  rewrite Hlen. unfold getitem. rewrite Hx, Hy. simpl.
  rewrite Hbar. simpl. rewrite Hlayout. simpl. by rewrite Hhtml.
Qed.




(** ** The paths no property above goes through *)

(** The rows of the introspection query are grouped by table. *)
Example get_snowflake_metadata_grouped :
  outcome_of (get_snowflake_metadata
                (fixed_conn [[PyStr (lit "ORDERS"); PyStr (lit "ID"); PyStr (lit "NUMBER")];
                             [PyStr (lit "USERS"); PyStr (lit "NAME"); PyStr (lit "TEXT")];
                             [PyStr (lit "ORDERS"); PyStr (lit "DAY"); PyStr (lit "DATE")]]
                            []))
  = Returns (Some {[ PyStr (lit "ORDERS") :=
                       {[ PyStr (lit "ID") := PyStr (lit "NUMBER");
                          PyStr (lit "DAY") := PyStr (lit "DATE") ]};
                     PyStr (lit "USERS") :=
                       {[ PyStr (lit "NAME") := PyStr (lit "TEXT") ]} ]}).
Proof. vm_compute. reflexivity. Qed.

(** Rows of another width than three are refused by the reshaping, and
    the fetcher returns [None]. *)
Example get_snowflake_metadata_wrong_width :
  outcome_of (get_snowflake_metadata
                (fixed_conn [[PyStr (lit "ORDERS"); PyStr (lit "ID")]] []))
  = Returns None.
Proof. reflexivity. Qed.

(** A result with rows comes back under the names of the cursor. *)
Example query_snowflake_rows :
  outcome_of (query_snowflake
                (fixed_conn [[PyStr (lit "A"); PyInt 10]; [PyStr (lit "B"); PyInt 20]]
                            [mkResultMetadata (lit "label") 2; mkResultMetadata (lit "value") 0])
                (lit "SELECT label, value FROM totals"))
  = Returns label_value_frame.
Proof. reflexivity. Qed.

(** A cursor without a description makes the executor return its error
    table, rows or not. *)
Example query_snowflake_no_description :
  outcome_of (query_snowflake
                (Connection (Returns (Cursor (λ _,
                   Returns (Executed (Returns []) None (Returns tt))))))
                (lit "SELECT 1"))
  = Returns (mkDataFrame [PyStr (lit "Error")]
               [[PyStr (lit "'NoneType' object is not iterable")]]).
Proof. reflexivity. Qed.

(** An exception that is no [Exception], such as [KeyboardInterrupt],
    leaves the executor as it came. *)
Lemma query_snowflake_interrupt (conn : connection) (sql_query : pystr) (e : pyexn) :
  cursor conn = Raises e → exn_is_Exception e = false →
  outcome_of (query_snowflake conn sql_query) = Raises e.
Proof.
  intros Hcur He. unfold query_snowflake. rewrite outcome_of_log.
  apply try_except_passed; [|done]. by rewrite Hcur.
Qed.

(** Row tuples without labels get the labels [0, 1, ...]; the column that
    is filled up holds its cells as pandas stores them. *)
Example pd_DataFrame_records :
  pd_DataFrame (RecordsData [[PyStr (lit "A"); PyInt 10]; [PyStr (lit "B")]])
  = Returns (mkDataFrame [PyInt 0; PyInt 1]
               [[PyStr (lit "A"); PyNum 10]; [PyStr (lit "B"); PyNA]]).
Proof. reflexivity. Qed.

(** A NULL among the numbers of a column changes how the whole column is
    stored; the other column stays as it was fetched. *)
Example query_snowflake_null_cell :
  outcome_of (query_snowflake
                (fixed_conn [[PyInt 1; PyInt 5]; [PyInt 2; PyNone]]
                            [mkResultMetadata (lit "ID") 0; mkResultMetadata (lit "QTY") 0])
                (lit "SELECT ID, QTY FROM ORDERS"))
  = Returns (mkDataFrame [PyStr (lit "ID"); PyStr (lit "QTY")]
               [[PyInt 1; PyNum 5]; [PyInt 2; PyNA]]).
Proof. reflexivity. Qed.

(** Rows without a table name give no group, and the fetcher returns an
    empty dictionary under each of the two columns that are left. *)
Example get_snowflake_metadata_no_table :
  outcome_of (get_snowflake_metadata
                (fixed_conn [[PyNone; PyStr (lit "ID"); PyStr (lit "NUMBER")];
                             [PyNone; PyStr (lit "NAME"); PyStr (lit "TEXT")]] []))
  = Returns (Some {[ PyStr (lit "COLUMN_NAME") := ∅; PyStr (lit "DATA_TYPE") := ∅ ]}).
Proof. vm_compute. reflexivity. Qed.

(** What the resolver logs on its three ways out. *)
Example get_login_token_log_absent :
  log_of (get_login_token local_fs)
  = [(WARNING, warning_sign ++ lit " Running locally: No OAuth token file found. Falling back to password authentication.")].
Proof. reflexivity. Qed.

Example get_login_token_log_error :
  log_of (get_login_token locked_fs)
  = [(ERROR, siren ++ lit " Error reading OAuth token: [Errno 13] Permission denied: '/snowflake/session/token'")].
Proof. reflexivity. Qed.

(** * Further properties *)

(** ** Trimming, continued *)

Lemma lstrip_app_space (pre s : pystr) :
  forallb isspace pre = true → lstrip (pre ++ s) = lstrip s.
Proof.
  induction pre as [|c pre IH]; simpl; [done|].
  intros Hpre. apply andb_true_iff in Hpre as [-> Hpre]. by apply IH.
Qed.

Lemma lstrip_space (s : pystr) : forallb isspace s = true → lstrip s = [].
Proof.
  intros Hs. rewrite <- (app_nil_r s). by rewrite lstrip_app_space.
Qed.

Lemma lstrip_app_keep (s post : pystr) :
  lstrip s ≠ [] → lstrip (s ++ post) = lstrip s ++ post.
Proof.
  induction s as [|c s IH]; simpl; [done|].
  destruct (isspace c); [exact IH|done].
Qed.

Lemma lstrip_nil_space (s : pystr) : lstrip s = [] → forallb isspace s = true.
Proof.
  induction s as [|c s IH]; simpl; [done|].
  destruct (isspace c); [exact IH|done].
Qed.

Lemma rstrip_app_space (s post : pystr) :
  forallb isspace post = true → rstrip (s ++ post) = rstrip s.
Proof.
  intros Hpost. unfold rstrip. rewrite rev_app_distr.
  rewrite lstrip_app_space; [done|]. by rewrite forallb_isspace_rev.
Qed.

(** Whitespace around a text does not change what [strip] gives. *)
Lemma strip_surrounded (pre s post : pystr) :
  forallb isspace pre = true → forallb isspace post = true →
  strip (pre ++ s ++ post) = strip s.
Proof.
  intros Hpre Hpost. unfold strip. rewrite lstrip_app_space by done.
  destruct (lstrip s) as [|c rest] eqn:Hs.
  - apply lstrip_nil_space in Hs.
    rewrite lstrip_space; [done|]. rewrite forallb_app. by rewrite Hs, Hpost.
  - rewrite lstrip_app_keep by (by rewrite Hs). rewrite Hs.
    by apply rstrip_app_space.
Qed.

Lemma strip_idem (s : pystr) : strip (strip s) = strip s.
Proof.
  destruct (strip_split s) as (pre & post & Hs & Hpre & Hpost).
  pose proof (strip_surrounded pre (strip s) post Hpre Hpost) as H.
  by rewrite <- Hs in H.
Qed.

(** ** The credential resolver, continued *)

(** The two ways [get_connection_params] returns. *)
Lemma get_connection_params_cases (cfg : config) (fs : filesystem)
    (params : gmap pystr pyval) :
  outcome_of (get_connection_params cfg fs) = Returns params →
  (∃ s, token_file_readable fs s ∧ strip s ≠ [] ∧ params = oauth_params cfg (strip s))
  ∨ ((token_file_absent fs ∨ ∃ s, token_file_readable fs s ∧ strip s = [])
     ∧ params = password_params cfg).
Proof.
  unfold get_connection_params, get_login_token, token_file_readable, token_file_absent.
  destruct (path_exists fs token_path) eqn:Hexists.
  - destruct (read_text fs token_path) as [s|e] eqn:Hread.
    + simpl. destruct (strip s) as [|c t] eqn:Hs; simpl; intros [= <-].
      * right. split; [|done]. right. exists s. by rewrite Hs.
      * left. exists s. by rewrite Hs.
    + unfold try_except. simpl. by destruct (exn_is_Exception e).
  - simpl. intros [= <-]. right. split; [by left|done].
Qed.

(** The mapping that comes back has the seven keys of one of the two
    ways to sign in, never a mix, and the account, host, warehouse,
    database and schema are the configured ones in both. *)
Theorem get_connection_params_keys (cfg : config) (fs : filesystem)
    (params : gmap pystr pyval) :
  outcome_of (get_connection_params cfg fs) = Returns params →
  (dom params = list_to_set (lit <$> ["account"; "host"; "authenticator"; "token";
                                       "warehouse"; "database"; "schema"])
   ∨ dom params = list_to_set (lit <$> ["account"; "host"; "user"; "password";
                                         "warehouse"; "database"; "schema"]))
  ∧ params !! lit "account" = Some (of_env (SNOWFLAKE_ACCOUNT cfg))
  ∧ params !! lit "host" = Some (of_env (SNOWFLAKE_HOST cfg))
  ∧ params !! lit "warehouse" = Some (of_env (SNOWFLAKE_WAREHOUSE cfg))
  ∧ params !! lit "database" = Some (of_env (SNOWFLAKE_DATABASE cfg))
  ∧ params !! lit "schema" = Some (of_env (SNOWFLAKE_SCHEMA cfg)).
Proof.
  intros Hparams.
  destruct (get_connection_params_cases _ _ _ Hparams)
    as [(s & _ & _ & ->)|[_ ->]].
  - split; [left; vm_compute; reflexivity|]. repeat split; reflexivity.
  - split; [right; vm_compute; reflexivity|]. repeat split; reflexivity.
Qed.

Lemma get_connection_params_keys_witness :
  (dom (password_params local_config)
   = list_to_set (lit <$> ["account"; "host"; "authenticator"; "token";
                            "warehouse"; "database"; "schema"])
   ∨ dom (password_params local_config)
     = list_to_set (lit <$> ["account"; "host"; "user"; "password";
                              "warehouse"; "database"; "schema"]))
  ∧ password_params local_config !! lit "account" = Some (PyStr (lit "acme"))
  ∧ password_params local_config !! lit "host" = Some PyNone
  ∧ password_params local_config !! lit "warehouse" = Some (PyStr (lit "WH"))
  ∧ password_params local_config !! lit "database" = Some (PyStr (lit "SALES"))
  ∧ password_params local_config !! lit "schema" = Some (PyStr (lit "PUBLIC")).
Proof.
  apply (get_connection_params_keys local_config local_fs). reflexivity.
Defined.

(** A token that is passed on is never empty and neither starts nor ends
    with whitespace. *)
Theorem get_connection_params_token_trimmed (cfg : config) (fs : filesystem)
    (params : gmap pystr pyval) (v : pyval) :
  outcome_of (get_connection_params cfg fs) = Returns params →
  params !! lit "token" = Some v →
  ∃ token, v = PyStr token
           ∧ token ≠ []
           ∧ (∀ c rest, token = c :: rest → isspace c = false)
           ∧ (∀ front c, token = front ++ [c] → isspace c = false).
Proof.
  intros Hparams Htoken.
  destruct (get_connection_params_cases _ _ _ Hparams)
    as [(s & _ & Hs & ->)|[_ ->]]; [|discriminate Htoken].
  exists (strip s). split; [by injection Htoken|]. split; [done|]. split.
  - intros c rest. apply strip_head.
  - intros front c. apply strip_last.
Qed.

Lemma get_connection_params_token_trimmed_witness :
  ∃ token, PyStr (lit "ver:1-hint:abc") = PyStr token
           ∧ token ≠ []
           ∧ (∀ c rest, token = c :: rest → isspace c = false)
           ∧ (∀ front c, token = front ++ [c] → isspace c = false).
Proof.
  apply (get_connection_params_token_trimmed local_config
           (token_fs ([0x0A; 0x20] ++ lit "ver:1-hint:abc" ++ [0x0D; 0x0A]))
           (oauth_params local_config (lit "ver:1-hint:abc")));
    reflexivity.
Defined.

(** Whitespace around the text of the token file changes neither the
    parameters nor the log. *)
Theorem get_connection_params_whitespace (cfg : config) (fs fs' : filesystem)
    (pre s post : pystr) :
  token_file_readable fs s →
  token_file_readable fs' (pre ++ s ++ post) →
  forallb isspace pre = true → forallb isspace post = true →
  get_connection_params cfg fs' = get_connection_params cfg fs.
Proof.
  intros Hfs Hfs' Hpre Hpost. unfold get_connection_params.
  rewrite (get_login_token_readable _ _ Hfs), (get_login_token_readable _ _ Hfs').
  by rewrite strip_surrounded.
Qed.

Lemma get_connection_params_whitespace_witness :
  get_connection_params local_config
    (token_fs ([0x09] ++ lit "abc def" ++ [0x0D; 0x0A]))
  = get_connection_params local_config (token_fs (lit "abc def")).
Proof.
  apply (get_connection_params_whitespace local_config
           (token_fs (lit "abc def"))
           (token_fs ([0x09] ++ lit "abc def" ++ [0x0D; 0x0A]))
           [0x09] (lit "abc def") [0x0D; 0x0A]).
  - split; reflexivity.
  - split; reflexivity.
  - reflexivity.
  - reflexivity.
Defined.

(** The resolver returns [None] exactly when [os.path.exists] says that
    there is no token file. *)
Theorem get_login_token_none_iff_absent (fs : filesystem) :
  outcome_of (get_login_token fs) = Returns None ↔ token_file_absent fs.
Proof.
  split; [|apply get_login_token_absent].
  unfold get_login_token, token_file_absent.
  destruct (path_exists fs token_path); [|done].
  destruct (read_text fs token_path) as [s|e]; [done|].
  unfold try_except. simpl. by destruct (exn_is_Exception e).
Qed.

(** What [get_connection_params] logs does not depend on the
    configuration: user, password and the other settings are not
    logged. *)
Theorem get_connection_params_log_config (cfg cfg' : config) (fs : filesystem) :
  log_of (get_connection_params cfg fs) = log_of (get_connection_params cfg' fs).
Proof.
  unfold get_connection_params.
  destruct (get_login_token fs) as [l [[[|c token]|]|e]]; reflexivity.
Qed.

(** With a readable token file the log is the one record that says which
    way was taken; the token is not in it. *)
Theorem get_connection_params_log_token (cfg : config) (fs : filesystem) (s : pystr) :
  token_file_readable fs s →
  log_of (get_connection_params cfg fs)
  = [(DEBUG, check_mark ++
       (if bool_decide (strip s = [])
        then lit " Using username/password authentication (running locally)."
        else lit " Using OAuth authentication (inside Snowflake Container Services)."))].
Proof.
  intros Hfs. unfold get_connection_params.
  rewrite (get_login_token_readable _ _ Hfs).
  by destruct (strip s).
Qed.

Lemma get_connection_params_log_token_witness :
  log_of (get_connection_params local_config (token_fs (lit "sekret-token")))
  = [(DEBUG, check_mark ++
       lit " Using OAuth authentication (inside Snowflake Container Services).")].
Proof.
  apply (get_connection_params_log_token local_config
           (token_fs (lit "sekret-token")) (lit "sekret-token")).
  split; reflexivity.
Defined.

(** ** The connection factory, continued *)

(** Whatever the resolver or the driver raises leaves the factory as it
    came: no connection and no [None] is returned in its place. *)
Theorem create_connection_error (connect : gmap pystr pyval → outcome connection)
    (cfg : config) (fs : filesystem) (e : pyexn) :
  outcome_of (get_connection_params cfg fs) = Raises e
  ∨ (∃ params, outcome_of (get_connection_params cfg fs) = Returns params
               ∧ connect params = Raises e) →
  outcome_of (create_connection connect cfg fs) = Raises e.
Proof.
  intros Hraises. apply create_connection_reraises.
  rewrite outcome_of_bind.
  destruct Hraises as [->|(params & -> & Hconnect)]; [done|].
  by rewrite outcome_of_call.
Qed.

Lemma create_connection_error_witness :
  outcome_of (create_connection refusing_connect local_config local_fs)
  = Raises DatabaseError.
Proof.
  apply (create_connection_error refusing_connect local_config local_fs DatabaseError).
  right. exists (password_params local_config). split; reflexivity.
Defined.

(** With a token file that holds a token, the driver is asked to sign in
    with that token, trimmed, and without user or password; the
    connection it gives is the one the factory returns. *)
Theorem create_connection_oauth (connect : gmap pystr pyval → outcome connection)
    (cfg : config) (fs : filesystem) (s : pystr) (conn : connection) :
  token_file_readable fs s → strip s ≠ [] →
  connect (oauth_params cfg (strip s)) = Returns conn →
  create_connection connect cfg fs
  = ([(DEBUG, check_mark ++ lit " Using OAuth authentication (inside Snowflake Container Services).");
      (DEBUG, check_mark ++ lit " Snowflake connection established successfully!")],
     Returns conn).
Proof.
  intros Hfs Hs Hconnect. unfold create_connection, get_connection_params.
  rewrite (get_login_token_readable _ _ Hfs).
  destruct (strip s) as [|c token]; [done|]. simpl. by rewrite Hconnect.
Qed.

Lemma create_connection_oauth_witness :
  create_connection token_connect local_config (token_fs ([0x20] ++ lit "abc" ++ [0x0A]))
  = ([(DEBUG, check_mark ++ lit " Using OAuth authentication (inside Snowflake Container Services).");
      (DEBUG, check_mark ++ lit " Snowflake connection established successfully!")],
     Returns failing_conn).
Proof.
  apply (create_connection_oauth token_connect local_config
           (token_fs ([0x20] ++ lit "abc" ++ [0x0A])) ([0x20] ++ lit "abc" ++ [0x0A])).
  - split; reflexivity.
  - discriminate.
  - reflexivity.
Defined.

(** An error of the token file is logged twice on its way out of the
    factory, once by the resolver and once by the factory. *)
Theorem create_connection_logs_read_error (connect : gmap pystr pyval → outcome connection)
    (cfg : config) (fs : filesystem) (e : pyexn) :
  path_exists fs token_path = true →
  read_text fs token_path = Raises e →
  exn_is_Exception e = true →
  log_of (create_connection connect cfg fs)
  = [(ERROR, siren ++ lit " Error reading OAuth token: " ++ exn_str e);
     (ERROR, siren ++ lit " Snowflake Connection Failed: " ++ exn_str e)].
Proof.
  intros Hexists Hread He.
  unfold create_connection, get_connection_params, get_login_token.
  rewrite Hexists, Hread. unfold try_except. simpl. rewrite He. simpl.
  by rewrite He.
Qed.

Lemma create_connection_logs_read_error_witness :
  log_of (create_connection refusing_connect local_config locked_fs)
  = [(ERROR, siren ++ lit " Error reading OAuth token: " ++ exn_str PermissionError);
     (ERROR, siren ++ lit " Snowflake Connection Failed: " ++ exn_str PermissionError)].
Proof.
  apply (create_connection_logs_read_error refusing_connect local_config locked_fs
           PermissionError); reflexivity.
Defined.

(** ** Handlers that return *)

(** With a handler that always returns, [try ... except Exception] lets
    no [Exception] out. *)
Lemma try_except_never_raises {A} (body : Py A) (handler : pyexn → Py A) (e : pyexn) :
  (∀ e', ∃ a, outcome_of (handler e') = Returns a) →
  outcome_of (try_except body handler) = Raises e →
  exn_is_Exception e = false.
Proof.
  intros Hhandler. destruct body as [l [a|e']]; simpl; [done|].
  destruct (exn_is_Exception e') eqn:He'.
  - destruct (Hhandler e') as [a Ha]. destruct (handler e') as [l' r].
    simpl in *. by subst r.
  - by intros [= <-].
Qed.

(** ** Tables *)

Lemma list_max_all (n : nat) (ns : list nat) :
  ns ≠ [] → Forall (λ m, m = n) ns → list_max ns = n.
Proof.
  intros Hns Hall. induction Hall as [|m ns -> Hall IH]; [done|].
  simpl. destruct ns as [|m' ns]; [simpl; lia|].
  rewrite IH by done. lia.
Qed.

Lemma pad_full (width : nat) (row : list pyval) :
  length row = width → pad width row = row.
Proof.
  intros <-. unfold pad. rewrite Nat.sub_diag. apply app_nil_r.
Qed.

Lemma length_pad (width : nat) (row : list pyval) :
  (length row ≤ width)%nat → length (pad width row) = width.
Proof.
  intros Hrow. unfold pad. rewrite length_app, repeat_length. lia.
Qed.

Lemma list_max_ge (n : nat) (ns : list nat) : n ∈ ns → (n ≤ list_max ns)%nat.
Proof.
  induction 1 as [n ns|n m ns _ IH]; simpl; lia.
Qed.

Lemma plain_not_missing (c : pyval) : plain_cell c = true → is_missing c = false.
Proof. by destruct c. Qed.

Lemma map_false_seq (start width : nat) :
  List.map (λ _ : nat, false) (seq start width) = repeat false width.
Proof.
  revert start. induction width as [|width IH]; intros start; [done|].
  simpl. by rewrite IH.
Qed.

(** Rows of integers and strings have no column with a missing cell. *)
Lemma missing_columns_plain (width : nat) (cells : list (list pyval)) :
  Forall (λ row, length row = width) cells →
  Forall (λ row, forallb plain_cell row = true) cells →
  missing_columns width cells = repeat false width.
Proof.
  intros Hwidth Hplain. unfold missing_columns.
  rewrite <- (map_false_seq 0 width). apply map_ext_in.
  intros j Hj. apply in_seq in Hj. apply not_true_iff_false.
  intros Hex. apply existsb_exists in Hex as (row & Hrow & Hmiss).
  apply list_elem_of_In in Hrow.
  rewrite Forall_forall in Hwidth. rewrite Forall_forall in Hplain.
  specialize (Hwidth row Hrow). specialize (Hplain row Hrow).
  rewrite forallb_forall in Hplain.
  rewrite plain_not_missing in Hmiss; [done|].
  apply Hplain, nth_In. lia.
Qed.

Lemma store_row_false (width : nat) (row : list pyval) :
  length row = width → store_row (repeat false width) row = row.
Proof.
  revert width. induction row as [|c row IH]; intros width <-; [done|].
  simpl. unfold store_row in *. simpl. by rewrite IH.
Qed.

Lemma length_store_row (flags : list bool) (row : list pyval) :
  length flags = length row → length (store_row flags row) = length row.
Proof. intros Hflags. unfold store_row. rewrite length_zip_with. lia. Qed.

Lemma length_missing_columns (width : nat) (cells : list (list pyval)) :
  length (missing_columns width cells) = width.
Proof. unfold missing_columns. by rewrite length_map, length_seq. Qed.

(** Storing rows of one width keeps their number and their width. *)
Lemma store_shape (width : nat) (cells : list (list pyval)) :
  Forall (λ row, length row = width) cells →
  length (store width cells) = length cells
  ∧ Forall (λ row, length row = width) (store width cells).
Proof.
  intros Hwidth. unfold store. split; [apply length_map|].
  apply Forall_map. eapply Forall_impl; [exact Hwidth|].
  intros row Hrow. simpl. rewrite length_store_row; [done|].
  by rewrite length_missing_columns.
Qed.

(** Rows of integers and strings are stored as they are. *)
Lemma store_plain (width : nat) (cells : list (list pyval)) :
  Forall (λ row, length row = width) cells →
  Forall (λ row, forallb plain_cell row = true) cells →
  store width cells = cells.
Proof.
  intros Hwidth Hplain. unfold store.
  rewrite missing_columns_plain by done.
  rewrite <- (map_id cells) at 2. apply map_ext_Forall.
  eapply Forall_impl; [exact Hwidth|]. intros row Hrow. by apply store_row_false.
Qed.

Lemma map_pad_full (width : nat) (data : list (list pyval)) :
  Forall (λ row, length row = width) data → List.map (pad width) data = data.
Proof.
  intros Hall. rewrite <- (map_id data) at 2. apply map_ext_Forall.
  eapply Forall_impl; [exact Hall|]. intros r Hr. by apply pad_full.
Qed.

(** Rows of one width that hold integers and strings only come back as
    they are under labels of that width. *)
Lemma DataFrame_from_records_rectangular (data : list (list pyval)) (labels : list pyval) :
  data ≠ [] → Forall (λ row, length row = length labels) data →
  Forall (λ row, forallb plain_cell row = true) data →
  DataFrame_from_records data (Some labels) = Returns (mkDataFrame labels data).
Proof.
  intros Hdata Hall Hplain. destruct data as [|row data]; [done|].
  unfold DataFrame_from_records.
  assert (Hwidth : list_max (List.map (@length pyval) (row :: data)) = length labels).
  { apply list_max_all; [done|]. by apply Forall_map. }
  rewrite Hwidth, Nat.eqb_refl. do 2 f_equal.
  rewrite map_pad_full by done. by apply store_plain.
Qed.

(** Rows of one width come back, whatever their cells, as a table of as
    many rows under labels of that width. *)
Lemma DataFrame_from_records_shape (data : list (list pyval)) (labels : list pyval) :
  data ≠ [] → Forall (λ row, length row = length labels) data →
  ∃ df, DataFrame_from_records data (Some labels) = Returns df
        ∧ columns df = labels
        ∧ length (rows df) = length data.
Proof.
  intros Hdata Hall. destruct data as [|row data]; [done|].
  unfold DataFrame_from_records.
  assert (Hwidth : list_max (List.map (@length pyval) (row :: data)) = length labels).
  { apply list_max_all; [done|]. by apply Forall_map. }
  rewrite Hwidth, Nat.eqb_refl. eexists. split; [reflexivity|]. split; [done|].
  cbn [rows]. rewrite map_pad_full by done. by apply store_shape.
Qed.

(** Every table [pd.DataFrame] makes of row tuples is rectangular. *)
Lemma DataFrame_from_records_wf (data : list (list pyval)) (labels : option (list pyval))
    (df : DataFrame) :
  DataFrame_from_records data labels = Returns df →
  Forall (λ row, length row = length (columns df)) (rows df).
Proof.
  destruct data as [|row data].
  - destruct labels; intros [= <-]; constructor.
  - unfold DataFrame_from_records.
    set (width := list_max (List.map (@length pyval) (row :: data))).
    assert (Hcells : Forall (λ r, length r = width)
                       (store width (List.map (pad width) (row :: data)))).
    { apply store_shape. apply Forall_map, Forall_forall. intros r Hr. apply length_pad.
      apply list_max_ge. apply list_elem_of_In, in_map. by apply list_elem_of_In. }
    destruct labels as [cs|].
    + destruct (length cs =? width)%nat eqn:Hcs; [|done].
      apply Nat.eqb_eq in Hcs. intros [= <-]. simpl. by rewrite Hcs.
    + intros [= <-]. simpl. by rewrite length_map, length_seq.
Qed.

(** ** The query executor, continued *)

(** The executor lets no [Exception] out, whatever the driver does. *)
Theorem query_snowflake_never_raises (conn : connection) (sql_query : pystr) (e : pyexn) :
  outcome_of (query_snowflake conn sql_query) = Raises e →
  exn_is_Exception e = false.
Proof.
  unfold query_snowflake. rewrite outcome_of_log.
  apply try_except_never_raises.
  intros e'. by exists (error_frame (exn_str e')).
Qed.

Lemma query_snowflake_never_raises_witness :
  exn_is_Exception (PyExn "KeyboardInterrupt" false []) = false.
Proof.
  apply (query_snowflake_never_raises
           (Connection (Raises (PyExn "KeyboardInterrupt" false [])))
           (lit "SELECT 1")).
  reflexivity.
Defined.

(** What the executor returns when a driver call raised an error. *)
Lemma query_snowflake_error_frame (conn : connection) (sql_query : pystr) (e : pyexn) :
  query_raises conn sql_query e → exn_is_Exception e = true →
  outcome_of (query_snowflake conn sql_query) = Returns (error_frame (exn_str e)).
Proof.
  intros Hraises He. unfold query_snowflake. rewrite outcome_of_log.
  rewrite (try_except_caught _ _ e); [reflexivity| |done].
  destruct Hraises as [Hcur|cur Hcur Hexec|cur st Hcur Hexec Hfetch
                      |cur st fetched descs Hcur Hexec Hfetch Hdesc Hclose].
  - by rewrite Hcur.
  - rewrite Hcur. simpl. by rewrite Hexec.
  - rewrite Hcur. simpl. rewrite Hexec. simpl. by rewrite Hfetch.
  - rewrite Hcur. simpl. rewrite Hexec. simpl. rewrite Hfetch, Hdesc. simpl.
    by rewrite Hclose.
Qed.

(** What the executor returns when every driver call went through. *)
Lemma query_snowflake_success (conn : connection) (sql_query : pystr)
    (fetched : list (list pyval)) (descs : list ResultMetadata) :
  query_succeeds conn sql_query fetched descs →
  outcome_of (query_snowflake conn sql_query)
  = match fetched with
    | [] => Returns DataFrame_empty
    | _ :: _ =>
        match DataFrame_from_records fetched
                (Some (List.map (λ desc, PyStr (name desc)) descs)) with
        | Returns df => Returns df
        | Raises e => Returns (error_frame (exn_str e))
        end
    end.
Proof.
  intros (cur & st & Hcur & Hexec & Hfetch & Hdesc & Hclose).
  unfold query_snowflake. rewrite outcome_of_log.
  unfold try_except, column_names.
  rewrite Hcur. simpl. rewrite Hexec. simpl. rewrite Hfetch, Hdesc. simpl.
  rewrite Hclose. simpl. destruct fetched as [|row fetched]; [done|].
  destruct (DataFrame_from_records _ _) as [df|e] eqn:Hdf; simpl; [done|].
  assert (He : exn_is_Exception e = true).
  { unfold DataFrame_from_records in Hdf.
    destruct (_ =? _)%nat in Hdf; [done|]. by injection Hdf as <-. }
  by rewrite He.
Qed.

(** Rows that are as wide as the description and hold integers and
    strings only, no NULL, come back with the cells they were fetched
    with, under the names the cursor reported. *)
Theorem query_snowflake_rows_returned (conn : connection) (sql_query : pystr)
    (fetched : list (list pyval)) (descs : list ResultMetadata) :
  query_succeeds conn sql_query fetched descs →
  fetched ≠ [] →
  Forall (λ row, length row = length descs) fetched →
  Forall (λ row, forallb plain_cell row = true) fetched →
  outcome_of (query_snowflake conn sql_query)
  = Returns (mkDataFrame (List.map (λ desc, PyStr (name desc)) descs) fetched).
Proof.
  intros Hquery Hrows Hwidth Hplain.
  rewrite (query_snowflake_success _ _ _ _ Hquery).
  rewrite DataFrame_from_records_rectangular; [by destruct fetched|done| |done].
  by rewrite length_map.
Qed.

Lemma query_snowflake_rows_returned_witness :
  outcome_of (query_snowflake
                (fixed_conn [[PyInt 1; PyStr (lit "pen")]; [PyInt 2; PyStr (lit "ink")]]
                            [mkResultMetadata (lit "ID") 0; mkResultMetadata (lit "ITEM") 2])
                (lit "SELECT ID, ITEM FROM ORDERS"))
  = Returns (mkDataFrame [PyStr (lit "ID"); PyStr (lit "ITEM")]
               [[PyInt 1; PyStr (lit "pen")]; [PyInt 2; PyStr (lit "ink")]]).
Proof.
  apply (query_snowflake_rows_returned
           (fixed_conn [[PyInt 1; PyStr (lit "pen")]; [PyInt 2; PyStr (lit "ink")]]
                       [mkResultMetadata (lit "ID") 0; mkResultMetadata (lit "ITEM") 2])
           (lit "SELECT ID, ITEM FROM ORDERS")
           [[PyInt 1; PyStr (lit "pen")]; [PyInt 2; PyStr (lit "ink")]]
           [mkResultMetadata (lit "ID") 0; mkResultMetadata (lit "ITEM") 2]).
  - eexists _, _. repeat split; reflexivity.
  - discriminate.
  - repeat constructor.
  - repeat constructor.
Defined.

(** A cursor without a description makes the executor return the error
    table of a [TypeError], also when rows were fetched. *)
Theorem query_snowflake_undescribed (conn : connection) (sql_query : pystr) :
  query_undescribed conn sql_query →
  outcome_of (query_snowflake conn sql_query)
  = Returns (error_frame (lit "'NoneType' object is not iterable")).
Proof.
  intros (cur & st & fetched & Hcur & Hexec & Hfetch & Hdesc).
  unfold query_snowflake. rewrite outcome_of_log.
  rewrite (try_except_caught _ _ (TypeError (lit "'NoneType' object is not iterable")));
    [reflexivity| |done].
  rewrite Hcur. simpl. rewrite Hexec. simpl. by rewrite Hfetch, Hdesc.
Qed.

Lemma query_snowflake_undescribed_witness :
  outcome_of (query_snowflake (undescribed_conn [[PyInt 1]]) (lit "SELECT 1"))
  = Returns (error_frame (lit "'NoneType' object is not iterable")).
Proof.
  apply (query_snowflake_undescribed (undescribed_conn [[PyInt 1]]) (lit "SELECT 1")).
  eexists _, _, _. repeat split; reflexivity.
Defined.

(** Every table the executor returns is rectangular: each row has one
    cell per column. *)
Theorem query_snowflake_rectangular (conn : connection) (sql_query : pystr) (df : DataFrame) :
  outcome_of (query_snowflake conn sql_query) = Returns df →
  Forall (λ row, length row = length (columns df)) (rows df).
Proof.
  unfold query_snowflake. rewrite outcome_of_log.
  set (body := (cur ← call (cursor conn); _)).
  set (handler := (λ e : pyexn, _)).
  assert (Hhandler : ∀ e, outcome_of (handler e) = Returns (error_frame (exn_str e)))
    by done.
  assert (Hbody : ∀ df', outcome_of body = Returns df' →
            Forall (λ row, length row = length (columns df')) (rows df')).
  { subst body. intros df'. destruct (cursor conn) as [cur|e]; [|done]. simpl.
    destruct (execute cur sql_query) as [st|e]; [|done]. simpl.
    destruct (fetchall st) as [fetched|e]; [|done].
    destruct (description st) as [descs|]; [|done]. simpl.
    destruct (close st) as [[]|e]; [|done]. simpl.
    destruct fetched as [|row fetched]; [intros [= <-]; constructor|].
    destruct (DataFrame_from_records _ _) as [df''|e] eqn:Hdf; [|done].
    intros [= <-]. by apply DataFrame_from_records_wf in Hdf. }
  clearbody body handler.
  destruct body as [l [df'|e]]; simpl in *.
  - intros [= <-]. by apply Hbody.
  - unfold try_except. destruct (exn_is_Exception e); [|done].
    specialize (Hhandler e). destruct (handler e) as [l' r]. simpl in *. subst r.
    intros [= <-]. by repeat constructor.
Qed.

Lemma query_snowflake_rectangular_witness :
  Forall (λ row, length row = length (columns label_value_frame)) (rows label_value_frame).
Proof.
  apply (query_snowflake_rectangular
           (fixed_conn [[PyStr (lit "A"); PyInt 10]; [PyStr (lit "B"); PyInt 20]]
                       [mkResultMetadata (lit "label") 2; mkResultMetadata (lit "value") 0])
           (lit "SELECT label, value FROM totals")).
  reflexivity.
Defined.

(** The table of a failed query is the table of a query that went
    through with the one text column [Error]: a caller cannot tell the
    two apart. *)
Theorem query_snowflake_error_ambiguous (conn : connection) (sql_query : pystr) (e : pyexn) :
  query_raises conn sql_query e → exn_is_Exception e = true →
  outcome_of (query_snowflake conn sql_query)
  = outcome_of (query_snowflake
                  (fixed_conn [[PyStr (exn_str e)]] [mkResultMetadata (lit "Error") 2])
                  sql_query).
Proof.
  intros Hraises He. rewrite (query_snowflake_error_frame _ _ _ Hraises He).
  rewrite (query_snowflake_success _ _ [[PyStr (exn_str e)]]
             [mkResultMetadata (lit "Error") 2]); [reflexivity|].
  eexists _, _. repeat split; reflexivity.
Qed.

Lemma query_snowflake_error_ambiguous_witness :
  outcome_of (query_snowflake failing_conn (lit "SELEC 1"))
  = outcome_of (query_snowflake
                  (fixed_conn [[PyStr (exn_str ProgrammingError)]]
                              [mkResultMetadata (lit "Error") 2])
                  (lit "SELEC 1")).
Proof.
  apply (query_snowflake_error_ambiguous failing_conn (lit "SELEC 1") ProgrammingError).
  - apply (query_execute_raises _ _ _ (Cursor (λ _, Raises ProgrammingError)));
      reflexivity.
  - reflexivity.
Defined.

(** ** The metadata fetcher, continued *)

(** The fetcher lets no [Exception] out, whatever the driver does. *)
Theorem get_snowflake_metadata_never_raises (conn : connection) (e : pyexn) :
  outcome_of (get_snowflake_metadata conn) = Raises e →
  exn_is_Exception e = false.
Proof.
  unfold get_snowflake_metadata. rewrite outcome_of_log.
  apply try_except_never_raises.
  intros e'. by exists None.
Qed.

Lemma get_snowflake_metadata_never_raises_witness :
  exn_is_Exception (PyExn "SystemExit" false []) = false.
Proof.
  apply (get_snowflake_metadata_never_raises
           (Connection (Raises (PyExn "SystemExit" false [])))).
  reflexivity.
Defined.

Lemma text_row_shape (row : list pyval) :
  text_row row = true → ∃ t c d, row = [PyStr t; PyStr c; PyStr d].
Proof.
  destruct row as [|[] [|[] [|[] [|]]]]; try done. intros _. by eexists _, _, _.
Qed.

Lemma text_rows_plain (fetched : list (list pyval)) :
  Forall (λ row, text_row row = true) fetched →
  Forall (λ row, length row = length metadata_columns) fetched
  ∧ Forall (λ row, forallb plain_cell row = true) fetched.
Proof.
  intros Htext. split; (eapply Forall_impl; [exact Htext|]);
    intros row Hrow; apply text_row_shape in Hrow as (t & c & d & ->); done.
Qed.

(** With rows of three strings the fetcher returns the grouping of the
    rows. *)
Lemma get_snowflake_metadata_success (conn : connection) (fetched : list (list pyval)) :
  metadata_succeeds conn fetched →
  Forall (λ row, text_row row = true) fetched →
  outcome_of (get_snowflake_metadata conn) = Returns (Some (foldl add_column ∅ fetched)).
Proof.
  intros (cur & st & Hcur & Hexec & Hfetch & Hclose) Htext.
  destruct (text_rows_plain _ Htext) as [Hwidth Hplain].
  unfold get_snowflake_metadata. rewrite outcome_of_log.
  apply try_except_returned.
  rewrite Hcur. simpl. rewrite Hexec. simpl. rewrite Hfetch. simpl.
  rewrite Hclose. simpl. destruct fetched as [|row fetched]; [done|].
  rewrite (DataFrame_from_records_rectangular (row :: fetched) metadata_columns)
    by done.
  apply Forall_cons_1 in Htext as [Hrow _].
  apply text_row_shape in Hrow as (t & c & d & ->). reflexivity.
Qed.

Lemma add_column_text (acc : gmap pyval (gmap pyval pyval)) (t : pystr) (c d : pyval) :
  add_column acc [PyStr t; c; d]
  = <[PyStr t := <[c := d]> (default ∅ (acc !! PyStr t))]> acc.
Proof. reflexivity. Qed.

(** An entry stays in place while the rows that follow name another
    table or another column. *)
Lemma foldl_add_column_keeps (after : list (list pyval))
    (acc : gmap pyval (gmap pyval pyval)) (table col dtype : pyval)
    (cols : gmap pyval pyval) :
  Forall (λ row, text_row row = true) after →
  acc !! table = Some cols → cols !! col = Some dtype →
  (∀ dtype', [table; col; dtype'] ∉ after) →
  ∃ cols', foldl add_column acc after !! table = Some cols'
           ∧ cols' !! col = Some dtype.
Proof.
  revert acc cols.
  induction after as [|row after IH]; intros acc cols Htext Hacc Hcols Hafter.
  - by exists cols.
  - apply Forall_cons_1 in Htext as [Hrow Htext].
    apply text_row_shape in Hrow as (t & c & d & ->).
    cbn [foldl]. rewrite add_column_text.
    assert (Hrest : ∀ dtype', [table; col; dtype'] ∉ after).
    { intros d' Hd. apply (Hafter d'). by right. }
    destruct (decide (PyStr t = table)) as [<-|Hne].
    + apply (IH _ (<[PyStr c := PyStr d]> cols)); [done| | |done].
      * rewrite Hacc. simpl. apply lookup_insert_eq.
      * rewrite lookup_insert_ne; [done|]. intros <-.
        apply (Hafter (PyStr d)). by left.
    + apply (IH _ cols); [done| |done|done]. by rewrite lookup_insert_ne.
Qed.

(** For rows of three strings, the type of the last row that names a
    table and a column is the one the mapping holds for them. *)
Theorem get_snowflake_metadata_lookup (conn : connection)
    (before after : list (list pyval)) (table col dtype : pystr) :
  metadata_succeeds conn (before ++ [PyStr table; PyStr col; PyStr dtype] :: after) →
  Forall (λ row, text_row row = true)
         (before ++ [PyStr table; PyStr col; PyStr dtype] :: after) →
  (∀ dtype', [PyStr table; PyStr col; dtype'] ∉ after) →
  ∃ metadata cols,
    outcome_of (get_snowflake_metadata conn) = Returns (Some metadata)
    ∧ metadata !! PyStr table = Some cols
    ∧ cols !! PyStr col = Some (PyStr dtype).
Proof.
  intros Hconn Htext Hafter.
  rewrite (get_snowflake_metadata_success _ _ Hconn Htext).
  rewrite foldl_app. cbn [foldl]. rewrite add_column_text.
  set (acc := foldl add_column ∅ before).
  apply Forall_app in Htext as [_ Htext]. apply Forall_cons_1 in Htext as [_ Htext].
  destruct (foldl_add_column_keeps after
              (<[PyStr table := <[PyStr col := PyStr dtype]>
                                  (default ∅ (acc !! PyStr table))]> acc)
              (PyStr table) (PyStr col) (PyStr dtype)
              (<[PyStr col := PyStr dtype]> (default ∅ (acc !! PyStr table))))
    as (cols & Hcols & Hdtype);
    [done|apply lookup_insert_eq|apply lookup_insert_eq|done|].
  by eexists _, cols.
Qed.

Lemma get_snowflake_metadata_lookup_witness :
  ∃ metadata cols,
    outcome_of (get_snowflake_metadata
                  (fixed_conn [[PyStr (lit "ORDERS"); PyStr (lit "ID"); PyStr (lit "TEXT")];
                               [PyStr (lit "ORDERS"); PyStr (lit "ID"); PyStr (lit "NUMBER")];
                               [PyStr (lit "USERS"); PyStr (lit "ID"); PyStr (lit "TEXT")]]
                              []))
    = Returns (Some metadata)
    ∧ metadata !! PyStr (lit "ORDERS") = Some cols
    ∧ cols !! PyStr (lit "ID") = Some (PyStr (lit "NUMBER")).
Proof.
  apply (get_snowflake_metadata_lookup
           (fixed_conn [[PyStr (lit "ORDERS"); PyStr (lit "ID"); PyStr (lit "TEXT")];
                        [PyStr (lit "ORDERS"); PyStr (lit "ID"); PyStr (lit "NUMBER")];
                        [PyStr (lit "USERS"); PyStr (lit "ID"); PyStr (lit "TEXT")]]
                       [])
           [[PyStr (lit "ORDERS"); PyStr (lit "ID"); PyStr (lit "TEXT")]]
           [[PyStr (lit "USERS"); PyStr (lit "ID"); PyStr (lit "TEXT")]]
           (lit "ORDERS") (lit "ID") (lit "NUMBER")).
  - eexists _, _. repeat split; reflexivity.
  - repeat constructor.
  - intros dtype' Hin. apply list_elem_of_singleton in Hin. discriminate Hin.
Defined.

Lemma foldl_add_column_invariant (I : gmap pyval (gmap pyval pyval) → Prop)
    (fetched : list (list pyval)) (acc : gmap pyval (gmap pyval pyval)) :
  (∀ acc' row, I acc' → row ∈ fetched → I (add_column acc' row)) →
  I acc → I (foldl add_column acc fetched).
Proof.
  revert acc. induction fetched as [|row fetched IH]; intros acc Hstep Hacc; [done|].
  simpl. apply IH.
  - intros acc' row' Hacc' Hrow'. apply Hstep; [done|]. by right.
  - apply Hstep; [done|]. by left.
Qed.

(** For rows of three strings, the mapping holds nothing the rows do not
    say: a table in it is a string, has at least one column, and each of
    its entries is a row that was fetched. *)
Theorem get_snowflake_metadata_sound (conn : connection) (fetched : list (list pyval))
    (metadata : gmap pyval (gmap pyval pyval)) (table : pyval) (cols : gmap pyval pyval) :
  metadata_succeeds conn fetched →
  Forall (λ row, text_row row = true) fetched →
  outcome_of (get_snowflake_metadata conn) = Returns (Some metadata) →
  metadata !! table = Some cols →
  (∃ t, table = PyStr t)
  ∧ cols ≠ ∅
  ∧ ∀ col dtype, cols !! col = Some dtype → [table; col; dtype] ∈ fetched.
Proof.
  intros Hconn Htext Hout.
  rewrite (get_snowflake_metadata_success _ _ Hconn Htext) in Hout.
  injection Hout as <-. revert table cols.
  apply (foldl_add_column_invariant
           (λ acc, ∀ table cols, acc !! table = Some cols →
              (∃ t, table = PyStr t) ∧ cols ≠ ∅
              ∧ ∀ col dtype, cols !! col = Some dtype → [table; col; dtype] ∈ fetched));
    [|intros table cols Hempty; by rewrite lookup_empty in Hempty].
  intros acc row Hacc Hrow table cols.
  rewrite Forall_forall in Htext.
  destruct (text_row_shape row (Htext row Hrow)) as (t & c & d & ->).
  rewrite add_column_text.
  destruct (decide (PyStr t = table)) as [<-|Hne];
    [|rewrite lookup_insert_ne by done; apply Hacc].
  rewrite lookup_insert_eq. intros [= <-].
  split; [by exists t|]. split; [apply insert_non_empty|].
  intros col dtype. destruct (decide (PyStr c = col)) as [<-|Hcol].
  - rewrite lookup_insert_eq. by intros [= <-].
  - rewrite lookup_insert_ne by done.
    destruct (acc !! PyStr t) as [old|] eqn:Hold; simpl; [|by rewrite lookup_empty].
    by apply (Hacc (PyStr t) old).
Qed.

Lemma get_snowflake_metadata_sound_witness :
  (∃ t, PyStr (lit "USERS") = PyStr t)
  ∧ ({[ PyStr (lit "NAME") := PyStr (lit "TEXT") ]} : gmap pyval pyval) ≠ ∅
  ∧ ∀ col dtype,
      ({[ PyStr (lit "NAME") := PyStr (lit "TEXT") ]} : gmap pyval pyval) !! col = Some dtype →
      [PyStr (lit "USERS"); col; dtype]
      ∈ [[PyStr (lit "ORDERS"); PyStr (lit "ID"); PyStr (lit "NUMBER")];
         [PyStr (lit "USERS"); PyStr (lit "NAME"); PyStr (lit "TEXT")]].
Proof.
  apply (get_snowflake_metadata_sound
           (fixed_conn [[PyStr (lit "ORDERS"); PyStr (lit "ID"); PyStr (lit "NUMBER")];
                        [PyStr (lit "USERS"); PyStr (lit "NAME"); PyStr (lit "TEXT")]] [])
           [[PyStr (lit "ORDERS"); PyStr (lit "ID"); PyStr (lit "NUMBER")];
            [PyStr (lit "USERS"); PyStr (lit "NAME"); PyStr (lit "TEXT")]]
           {[ PyStr (lit "ORDERS") := {[ PyStr (lit "ID") := PyStr (lit "NUMBER") ]};
              PyStr (lit "USERS") := {[ PyStr (lit "NAME") := PyStr (lit "TEXT") ]} ]}).
  - eexists _, _. repeat split; reflexivity.
  - repeat constructor.
  - vm_compute. reflexivity.
  - vm_compute. reflexivity.
Defined.

(** ** The chart generator, continued *)

(** The generator lets no [Exception] out, whatever plotly does. *)
Theorem visual_generate_never_raises (P : Plotly) (query : pystr) (data : pydata)
    (response : pystr) (e : pyexn) :
  outcome_of (visual_generate P query data response) = Raises e →
  exn_is_Exception e = false.
Proof.
  unfold visual_generate. rewrite outcome_of_log.
  apply try_except_never_raises.
  intros e'. by exists [].
Qed.

Lemma visual_generate_never_raises_witness :
  exn_is_Exception (PyExn "KeyboardInterrupt" false []) = false.
Proof.
  apply (visual_generate_never_raises
           {| Figure := unit;
              px_bar := λ _ _ _ _, Raises (PyExn "KeyboardInterrupt" false []);
              update_layout := λ fig _, Returns fig;
              to_html := λ _ _, Returns [] |}
           [] (FrameData label_value_frame) []).
  reflexivity.
Defined.

(** When one of the plotly calls raises an error, the generator returns
    the empty string. *)
Theorem visual_generate_render_error (P : Plotly) (query : pystr) (data : pydata)
    (df : DataFrame) (response : pystr) (e : pyexn) :
  pd_DataFrame data = Returns df →
  df_empty df = false →
  render_raises P df response e →
  exn_is_Exception e = true →
  outcome_of (visual_generate P query data response) = Returns [].
Proof.
  intros Hdf Hempty Hraises He.
  unfold visual_generate. rewrite outcome_of_log.
  rewrite (try_except_caught _ _ e); [reflexivity| |done].
  rewrite Hdf. simpl. rewrite Hempty. simpl.
  assert (Hlen : ∀ y, columns df !! 1%nat = Some y →
            (length (columns df) <? 2)%nat = false).
  { intros y Hy. apply Nat.ltb_ge. by apply lookup_lt_Some in Hy. }
  unfold getitem.
  destruct Hraises as [x y Hx Hy Hbar|x y fig Hx Hy Hbar Hlayout
                      |x y fig fig' Hx Hy Hbar Hlayout Hhtml];
    unfold dark_layout in *;
    rewrite (Hlen y Hy), Hx, Hy; simpl; rewrite Hbar; simpl; [done| |].
  - by rewrite Hlayout.
  - rewrite Hlayout. simpl. by rewrite Hhtml.
Qed.

Lemma visual_generate_render_error_witness :
  outcome_of (visual_generate broken_plotly (lit "SELECT label, value FROM totals")
                (FrameData label_value_frame) (lit "Totals"))
  = Returns [].
Proof.
  apply (visual_generate_render_error broken_plotly _ _ label_value_frame _
           (ValueError (lit "Invalid value"))).
  - reflexivity.
  - reflexivity.
  - apply (html_raises broken_plotly _ _ _ (PyStr (lit "label")) (PyStr (lit "value"))
             (PlainFigure (lit "Totals") (lit "label") (lit "value") None)
             (PlainFigure (lit "Totals") (lit "label") (lit "value") (Some dark_layout)));
      reflexivity.
  - reflexivity.
Defined.

(** The table of a query that failed, and the table of a query without
    rows, give no chart: the generator returns the empty string for
    both. *)
Theorem visual_generate_of_failed_query (P : Plotly) (conn : connection)
    (sql_query query response : pystr) :
  (∃ e, query_raises conn sql_query e ∧ exn_is_Exception e = true)
  ∨ (∃ descs, query_succeeds conn sql_query [] descs) →
  ∃ df, outcome_of (query_snowflake conn sql_query) = Returns df
        ∧ outcome_of (visual_generate P query (FrameData df) response) = Returns [].
Proof.
  intros [(e & Hraises & He)|(descs & Hquery)].
  - exists (error_frame (exn_str e)).
    split; [by apply query_snowflake_error_frame|].
    by apply (visual_generate_guard _ _ _ (error_frame (exn_str e))).
  - exists DataFrame_empty.
    split; [by rewrite (query_snowflake_success _ _ _ _ Hquery)|].
    by apply (visual_generate_guard _ _ _ DataFrame_empty).
Qed.

Lemma visual_generate_of_failed_query_witness :
  ∃ df, outcome_of (query_snowflake failing_conn (lit "SELEC 1")) = Returns df
        ∧ outcome_of (visual_generate plain_plotly (lit "SELEC 1") (FrameData df)
                        (lit "Totals")) = Returns [].
Proof.
  apply (visual_generate_of_failed_query plain_plotly failing_conn).
  left. exists ProgrammingError. split; [|reflexivity].
  apply (query_execute_raises _ _ _ (Cursor (λ _, Raises ProgrammingError)));
    reflexivity.
Defined.

(** For the table a query with rows returned, the generator asks plotly
    for the bar chart of the first column the cursor named against the
    second, over that table, and returns the markup plotly renders. *)
Theorem visual_generate_of_query (P : Plotly) (conn : connection)
    (sql_query query response html : pystr)
    (fetched : list (list pyval)) (first second : ResultMetadata)
    (others : list ResultMetadata) (df : DataFrame) (fig fig' : Figure P) :
  query_succeeds conn sql_query fetched (first :: second :: others) →
  fetched ≠ [] →
  Forall (λ row, length row = length (first :: second :: others)) fetched →
  outcome_of (query_snowflake conn sql_query) = Returns df →
  px_bar P df (PyStr (name first)) (PyStr (name second)) response = Returns fig →
  update_layout P fig dark_layout = Returns fig' →
  to_html P fig' false = Returns html →
  outcome_of (visual_generate P query (FrameData df) response) = Returns html.
Proof.
  intros Hquery Hrows Hwidth Hdf Hbar Hlayout Hhtml.
  rewrite (query_snowflake_success _ _ _ _ Hquery) in Hdf.
  destruct (DataFrame_from_records_shape fetched
              (List.map (λ desc, PyStr (name desc)) (first :: second :: others)))
    as (df' & Hframe & Hcolumns & Hlength); [done|by rewrite length_map|].
  rewrite Hframe in Hdf. destruct fetched as [|row fetched]; [done|].
  injection Hdf as <-.
  apply (visual_generate_rendered _ _ _ df'); [done| |].
  - unfold df_empty. rewrite Hlength, Hcolumns. reflexivity.
  - exists (PyStr (name first)), (PyStr (name second)), fig, fig'.
    rewrite Hcolumns. by repeat split.
Qed.

Lemma visual_generate_of_query_witness :
  outcome_of (visual_generate plain_plotly (lit "totals per label")
                (FrameData (mkDataFrame [PyStr (lit "label"); PyStr (lit "value")]
                              [[PyStr (lit "A"); PyNum 10]; [PyStr (lit "B"); PyNA]]))
                (lit "Totals"))
  = Returns (lit "<div><h1>Totals</h1><p>label</p><p>value</p></div>").
Proof.
  apply (visual_generate_of_query plain_plotly
           (fixed_conn [[PyStr (lit "A"); PyInt 10]; [PyStr (lit "B"); PyNone]]
                       [mkResultMetadata (lit "label") 2; mkResultMetadata (lit "value") 0])
           (lit "SELECT label, value FROM totals") _ _ _
           [[PyStr (lit "A"); PyInt 10]; [PyStr (lit "B"); PyNone]]
           (mkResultMetadata (lit "label") 2) (mkResultMetadata (lit "value") 0) []
           (mkDataFrame [PyStr (lit "label"); PyStr (lit "value")]
              [[PyStr (lit "A"); PyNum 10]; [PyStr (lit "B"); PyNA]])
           (PlainFigure (lit "Totals") (lit "label") (lit "value") None)
           (PlainFigure (lit "Totals") (lit "label") (lit "value") (Some dark_layout))).
  - eexists _, _. repeat split; reflexivity.
  - discriminate.
  - repeat constructor.
  - reflexivity.
  - reflexivity.
  - reflexivity.
  - reflexivity.
Defined.

(** ** The logger *)








(** ** Loading the module *)

(** When the client cannot be built, loading the module ends with the
    exception of the constructor; an [Exception] is logged as an error
    after the two progress records. *)
Theorem load_utils_llm_error {LLM : Type} (environ dotenv : gmap pystr pystr)
    (AzureChatOpenAI : pyval → pyval → pyval → pyval → outcome LLM) (e : pyexn) :
  (let environ := load_dotenv environ dotenv in
   AzureChatOpenAI (of_env (getenv environ (lit "OPENAI_API_KEY")))
                   (of_env (getenv environ (lit "AZURE_ENDPOINT")))
                   (of_env (getenv environ (lit "AZURE_DEPLOYMENT_NAME")))
                   (of_env (getenv environ (lit "AZURE_API_VERSION"))) = Raises e) →
  outcome_of (load_utils environ dotenv AzureChatOpenAI) = Raises e
  ∧ (exn_is_Exception e = true →
     log_of (load_utils environ dotenv AzureChatOpenAI)
     = [(DEBUG, lit "Loading environment variables...");
        (DEBUG, lit "Initializing Azure OpenAI Model...");
        (ERROR, siren ++ lit " Failed to Initialize Azure OpenAI Model: " ++ exn_str e)]).
Proof.
  simpl. intros Hllm. unfold load_utils. rewrite Hllm.
  unfold try_except. simpl. by destruct (exn_is_Exception e).
Qed.

Lemma load_utils_llm_error_witness :
  outcome_of (load_utils (LLM := unit) ∅ ∅
                (λ _ _ _ _, Raises (ValueError (lit "Must provide an api key"))))
  = Raises (ValueError (lit "Must provide an api key"))
  ∧ (exn_is_Exception (ValueError (lit "Must provide an api key")) = true →
     log_of (load_utils (LLM := unit) ∅ ∅
               (λ _ _ _ _, Raises (ValueError (lit "Must provide an api key"))))
     = [(DEBUG, lit "Loading environment variables...");
        (DEBUG, lit "Initializing Azure OpenAI Model...");
        (ERROR, siren ++ lit " Failed to Initialize Azure OpenAI Model: "
                ++ exn_str (ValueError (lit "Must provide an api key")))]).
Proof.
  apply (load_utils_llm_error (LLM := unit) ∅ ∅
           (λ _ _ _ _, Raises (ValueError (lit "Must provide an api key")))).
  reflexivity.
Defined.

(** When the constructor returns the client, the module loads: it
    returns the client and the settings read from the environment. *)
Lemma load_utils_returns {LLM : Type} (environ dotenv : gmap pystr pystr)
    (AzureChatOpenAI : pyval → pyval → pyval → pyval → outcome LLM) (llm : LLM) :
  (let environ := load_dotenv environ dotenv in
   AzureChatOpenAI (of_env (getenv environ (lit "OPENAI_API_KEY")))
                   (of_env (getenv environ (lit "AZURE_ENDPOINT")))
                   (of_env (getenv environ (lit "AZURE_DEPLOYMENT_NAME")))
                   (of_env (getenv environ (lit "AZURE_API_VERSION"))) = Returns llm) →
  ∃ cfg, outcome_of (load_utils environ dotenv AzureChatOpenAI) = Returns (llm, cfg)
         ∧ SNOWFLAKE_PASSWORD cfg
           = getenv (load_dotenv environ dotenv) (lit "SNOWFLAKE_PASSWORD").
Proof.
  simpl. intros Hllm. eexists. unfold load_utils. rewrite Hllm. split; reflexivity.
Qed.

(** A warehouse password that is set nowhere is not refused: when the
    constructor returns the client, the module loads, and without a token
    file the parameters carry the key [password] with the value
    [None]. *)
Theorem load_utils_missing_password {LLM : Type} (environ dotenv : gmap pystr pystr)
    (AzureChatOpenAI : pyval → pyval → pyval → pyval → outcome LLM)
    (llm : LLM) (fs : filesystem) :
  (let environ := load_dotenv environ dotenv in
   AzureChatOpenAI (of_env (getenv environ (lit "OPENAI_API_KEY")))
                   (of_env (getenv environ (lit "AZURE_ENDPOINT")))
                   (of_env (getenv environ (lit "AZURE_DEPLOYMENT_NAME")))
                   (of_env (getenv environ (lit "AZURE_API_VERSION"))) = Returns llm) →
  environ !! lit "SNOWFLAKE_PASSWORD" = None →
  dotenv !! lit "SNOWFLAKE_PASSWORD" = None →
  token_file_absent fs →
  ∃ cfg params,
    outcome_of (load_utils environ dotenv AzureChatOpenAI) = Returns (llm, cfg)
    ∧ outcome_of (get_connection_params cfg fs) = Returns params
    ∧ params !! lit "password" = Some PyNone.
Proof.
  intros Hllm Henv Hdotenv Habsent.
  destruct (load_utils_returns environ dotenv AzureChatOpenAI llm Hllm)
    as (cfg & Hload & Hpassword).
  assert (Hnone : SNOWFLAKE_PASSWORD cfg = None).
  { rewrite Hpassword. unfold getenv, load_dotenv.
    apply lookup_union_None. by split. }
  exists cfg, (password_params cfg). split; [done|]. split.
  - unfold get_connection_params, get_login_token. by rewrite Habsent.
  - change (password_params cfg !! lit "password")
      with (Some (of_env (SNOWFLAKE_PASSWORD cfg))).
    by rewrite Hnone.
Qed.

Lemma load_utils_missing_password_witness :
  ∃ cfg params,
    outcome_of (load_utils {[ lit "SNOWFLAKE_USER" := lit "analyst" ]} ∅ any_llm)
    = Returns (tt, cfg)
    ∧ outcome_of (get_connection_params cfg local_fs) = Returns params
    ∧ params !! lit "password" = Some PyNone.
Proof.
  apply (load_utils_missing_password
           {[ lit "SNOWFLAKE_USER" := lit "analyst" ]} ∅ any_llm tt local_fs);
    reflexivity.
Defined.
